(** * claudeline: the npm wrapper scripts

    A shallow embedding of the JavaScript glue of the repository:

    - [scripts/install.js] (the release-fetching installer): module [Installer];
    - [bin/cli.js] (the launcher, in its two brandings): module [Launcher];
    - [index.js] (the exported path): module [Index].

    JavaScript strings and Buffers are modelled as [string]; numbers that the
    code only compares or prints (status codes, file modes, exit codes) as
    [Z]; the file system as a finite map from paths to files.  Everything
    the scripts obtain from their host (platform, network, archive tools,
    failing system calls) is a field of an environment record, so every
    definition below computes. *)

From Stdlib Require Import ZArith String Ascii List DecimalString Bool Lia.
From Stdlib Require Import DecimalPos DecimalZ.
From stdpp Require Import gmap strings.
Import ListNotations.

Open Scope Z_scope.
Open Scope string_scope.

(* stdpp freezes [String.append] under [simpl]; the proofs below compute
   with string literals, so it is released again. *)
Arguments String.append : simpl nomatch.

(** ** JavaScript string primitives *)

Module Js.

(** The double quote and the line feed, which the sources write
    escaped inside their literals. *)
Definition dq : string := String (ascii_of_nat 34) EmptyString.
Definition nl : string := String (ascii_of_nat 10) EmptyString.
Definition backslash : string := String (ascii_of_nat 92) EmptyString.

(** [s.startsWith(p)] *)
Definition startsWith (s p : string) : bool := String.prefix p s.

(** [s.includes(needle)] *)
Fixpoint includes (s needle : string) : bool :=
  String.prefix needle s ||
  match s with
  | EmptyString => false
  | String _ s' => includes s' needle
  end.

(** Truthiness of a value that is either [undefined] or a string: the
    empty string is falsy. *)
Definition truthy (v : option string) : bool :=
  match v with
  | None => false
  | Some s => negb (String.eqb s EmptyString)
  end.

(** [`${n}`] for an integer-valued number. *)
Definition num (n : Z) : string := NilZero.string_of_int (Z.to_int n).

(** [xs.join(sep)] *)
Definition join (sep : string) (xs : list string) : string :=
  String.concat sep xs.

(** [obj[key]] on an object literal, kept as the list of its own
    properties in insertion order (the order [Object.keys] reports).
    The keys looked up in this file contain a hyphen, which no property
    inherited from [Object.prototype] does. *)
Fixpoint get (obj : list (string * string)) (key : string) : option string :=
  match obj with
  | [] => None
  | (k, v) :: rest => if String.eqb k key then Some v else get rest key
  end.

Definition keys (obj : list (string * string)) : list string := map fst obj.

End Js.

(** ** The installer, [scripts/install.js] *)

Module Installer.

Definition REPO : string := "mstuart/ai-statusline".
Definition BINARY_NAME : string := "ai-statusline".

(** *** Files and the host *)

Record File := mkFile { content : string; mode : Z }.

(** An archive member: its path inside the archive and the file it
    unpacks to. *)
Definition Entry : Type := string * File.

Record Response := mkResponse {
  statusCode : Z;
  location : option string;          (* [response.headers.location] *)
  body : string + string             (* all chunks, or the stream's error *)
}.

(** What a call of [https.get] or [http.get] comes to.  The call itself
    throws, before any request is made, when the client refuses the URL:
    current versions of node do so for a string that is not an absolute
    URL, such as the relative reference [/releases/asset], and for a URL
    whose scheme is not the client's ([ftp:], or [https:] handed to
    [http]).  Which strings a client refuses is node's decision, so it is
    read from the host like the answers themselves. *)
Inductive NetResult :=
| NetThrow (message : string)        (* [get] throws synchronously *)
| NetError (message : string)        (* the request's "error" event *)
| NetResponse (r : Response).

Inductive FsOp :=
| OpMkdir (path : string)
| OpWrite (path : string)
| OpChmod (path : string)
| OpUnlink (path : string).

(** What the script reads from its host.  [VERSION] is the [version]
    field of [package.json]; [package_dir] is [path.join(__dirname, "..")]
    already normalised; [http_get n secure url] answers the [n]-th
    request of a download, issued through [https] when [secure] and
    through [http] otherwise; [untar] and [unzip] are what the external
    tools make of an archive (an error message when they exit non-zero);
    [fs_fault] names the system calls that fail for reasons outside the
    model (permissions, full disk) with their messages; [fs_partial]
    says what a failing write leaves at its path: nothing of it when the
    file could not even be opened ([None]), otherwise the file created or
    truncated by the open, holding the bytes written before the failure. *)
Record Env := mkEnv {
  platform : string;
  arch : string;
  VERSION : string;
  package_dir : string;
  tmpdir : string;
  now : N;
  default_mode : Z;
  http_get : nat -> bool -> string -> NetResult;
  untar : string -> string + list Entry;
  unzip : string -> string + list Entry;
  fs_fault : FsOp -> option string;
  fs_partial : string -> option nat
}.

(** *** Observable events, in the order they happen *)

Inductive Event :=
| ConsoleLog (line : string)
| ConsoleWarn (line : string)
| ConsoleError (line : string)
| LogDownloaded (bytes : nat)        (* "  Downloaded x.y MB", digits left abstract *)
| HttpGet (secure : bool) (url : string)
| Uncaught (message : string)        (* an exception nothing catches, on stderr *)
| FsMkdir (path : string)
| FsWrite (path data : string)
| FsChmod (path : string) (m : Z)
| FsUnlink (path : string)
| Exec (command : string).

Record World := mkWorld {
  fs : gmap string File;
  out : list Event
}.

(** *** Computations: state, exceptions, [process.exit] and fuel *)

Inductive Res (A : Type) :=
| Ret (a : A)
| Throw (message : string)
| Exit (code : Z)
| OutOfFuel.
Arguments Ret {A} a.
Arguments Throw {A} message.
Arguments Exit {A} code.
Arguments OutOfFuel {A}.

Definition M (A : Type) : Type := World -> Res A * World.

Definition ret {A} (a : A) : M A := fun w => (Ret a, w).

Definition bind {A B} (c : M A) (k : A -> M B) : M B := fun w =>
  match c w with
  | (Ret a, w') => k a w'
  | (Throw e, w') => (Throw e, w')
  | (Exit n, w') => (Exit n, w')
  | (OutOfFuel, w') => (OutOfFuel, w')
  end.

Notation "'let!' x ':=' c 'in' k" := (bind c (fun x => k))
  (at level 10, x pattern, c at level 100, k at level 200).
Notation "c ;;; k" := (bind c (fun _ => k))
  (at level 100, k at level 200, right associativity).

Definition throw {A} (e : string) : M A := fun w => (Throw e, w).
Definition process_exit {A} (n : Z) : M A := fun w => (Exit n, w).
Definition emit (e : Event) : M unit := fun w =>
  (Ret tt, mkWorld (fs w) (out w ++ [e])).

(** An exception thrown where no [try] block and no promise is there to
    receive it: node reports it and ends the process with status 1. *)
Definition uncaught {A} (e : string) : M A :=
  bind (emit (Uncaught e)) (fun _ => process_exit 1).

(** [try { body } catch (error) { handler(error.message) }] *)
Definition try_catch {A} (body : M A) (handler : string -> M A) : M A :=
  fun w =>
    match body w with
    | (Throw e, w') => handler e w'
    | r => r
    end.

(** [try { body } finally { cleanup }]: the cleanup runs after a return
    and after a throw, and its own throw replaces the body's outcome. *)
Definition try_finally {A} (body : M A) (cleanup : M unit) : M A :=
  fun w =>
    match body w with
    | (Ret a, w') => bind cleanup (fun _ => ret a) w'
    | (Throw e, w') => bind cleanup (fun _ => throw e) w'
    | r => r
    end.

Section WithEnv.

Variable env : Env.

(** *** [getPlatformTarget] *)

Definition targets : list (string * string) :=
  [ ("darwin-x64", "x86_64-apple-darwin");
    ("darwin-arm64", "aarch64-apple-darwin");
    ("linux-x64", "x86_64-unknown-linux-gnu");
    ("linux-arm64", "aarch64-unknown-linux-gnu");
    ("win32-x64", "x86_64-pc-windows-msvc") ].

Definition platform_key (p a : string) : string := p +:+ "-" +:+ a.

(** Returns the [target] and the [platform] (the caller never reads
    [arch]). *)
Definition getPlatformTarget : M (string * string) :=
  let key := platform_key (platform env) (arch env) in
  let target := Js.get targets key in
  if negb (Js.truthy target) then
    emit (ConsoleError ("Unsupported platform: " +:+ key)) ;;;
    emit (ConsoleError ("Supported platforms: " +:+ Js.join ", " (Js.keys targets))) ;;;
    process_exit 1
  else
    ret (default EmptyString target, platform env).

(** *** [getDownloadUrl] *)

Definition getDownloadUrl (target : string) : string :=
  let archive := if Js.includes target "windows" then "zip" else "tar.gz" in
  "https://github.com/" +:+ REPO +:+ "/releases/download/v" +:+ VERSION env
    +:+ "/" +:+ BINARY_NAME +:+ "-v" +:+ VERSION env +:+ "-" +:+ target
    +:+ "." +:+ archive.

(** *** [download]

    [handler] is the response callback.  The promise is settled by the
    first response that is not a followed redirect; [url] is the
    argument of [download], which the callback closes over, and [n]
    counts the calls of [get] so far.  Each followed redirect costs
    one unit of fuel: the source has no bound of its own.

    The first [https.get] runs inside the promise's executor, where a
    throw rejects the promise.  The [client.get] of a redirect runs
    inside the response callback, which node calls from its event loop:
    a throw there is caught by nobody, the promise is never settled and
    the process ends. *)

Fixpoint handler (fuel : nat) (url : string) (n : nat) (response : Response)
  : M string :=
  if Z.leb 300 (statusCode response) && Z.ltb (statusCode response) 400
     && Js.truthy (location response) then
    match fuel with
    | O => fun w => (OutOfFuel, w)
    | S fuel' =>
      let redirectUrl := default EmptyString (location response) in
      let secure := Js.startsWith redirectUrl "https" in
      match http_get env n secure redirectUrl with
      | NetThrow e => uncaught e
      | NetError e => emit (HttpGet secure redirectUrl) ;;; throw e
      | NetResponse r =>
          emit (HttpGet secure redirectUrl) ;;; handler fuel' url (S n) r
      end
    end
  else if negb (Z.eqb (statusCode response) 200) then
    throw ("Download failed with status " +:+ Js.num (statusCode response)
             +:+ ": " +:+ url)
  else
    match body response with
    | inl data => ret data
    | inr e => throw e
    end.

Definition download (fuel : nat) (url : string) : M string :=
  match http_get env O true url with
  | NetThrow e => throw e
  | NetError e => emit (HttpGet true url) ;;; throw e
  | NetResponse r => emit (HttpGet true url) ;;; handler fuel url 1%nat r
  end.

(** *** The [fs], [path] and [child_process] calls the script makes

    The files are a map from paths to contents and modes; directories are
    not tracked.  A call fails when [fs_fault] says so; [chmodSync] and
    [unlinkSync] fail as well when their file is missing.  Every call
    that changes the files or runs a command is logged before its outcome
    is known; [existsSync], which only looks, leaves no event. *)

Definition sep : string :=
  if String.eqb (platform env) "win32" then Js.backslash else "/".

(** [path.join(a, b)] for a directory [a] that is already normalised and
    does not end in a separator, and a plain name [b]: the only way the
    script calls it. *)
Definition path_join (a b : string) : string := a +:+ sep +:+ b.

(** The message of node's error for a path that does not exist. *)
Definition ENOENT (syscall path : string) : string :=
  "ENOENT: no such file or directory, " +:+ syscall +:+ " '" +:+ path +:+ "'".

Definition existsSync (path : string) : M bool := fun w =>
  (Ret (bool_decide (is_Some (fs w !! path))), w).

Definition mkdirSync (path : string) : M unit :=
  emit (FsMkdir path) ;;;
  match fs_fault env (OpMkdir path) with
  | Some e => throw e
  | None => ret tt
  end.

(** [fs.writeFileSync(path, data)] opens the file for writing, which
    creates or empties it, writes and closes.  A failure after the open
    leaves the file behind with what was written until then. *)
Definition writeFileSync (path data : string) : M unit :=
  emit (FsWrite path data) ;;;
  fun w =>
    let m := match fs w !! path with
             | Some f => mode f
             | None => default_mode env
             end in
    match fs_fault env (OpWrite path) with
    | Some e =>
        match fs_partial env path with
        | None => (Throw e, w)
        | Some k =>
            (Throw e,
             mkWorld (<[path := mkFile (String.substring 0 k data) m]> (fs w)) (out w))
        end
    | None => (Ret tt, mkWorld (<[path := mkFile data m]> (fs w)) (out w))
    end.

Definition chmodSync (path : string) (m : Z) : M unit :=
  emit (FsChmod path m) ;;;
  match fs_fault env (OpChmod path) with
  | Some e => throw e
  | None => fun w =>
      match fs w !! path with
      | None => (Throw (ENOENT "chmod" path), w)
      | Some f => (Ret tt, mkWorld (<[path := mkFile (content f) m]> (fs w)) (out w))
      end
  end.

Definition unlinkSync (path : string) : M unit :=
  emit (FsUnlink path) ;;;
  match fs_fault env (OpUnlink path) with
  | Some e => throw e
  | None => fun w =>
      match fs w !! path with
      | None => (Throw (ENOENT "unlink" path), w)
      | Some _ => (Ret tt, mkWorld (delete path (fs w)) (out w))
      end
  end.

(** What an archive tool that succeeds does to the files: every entry
    lands under [destDir], replacing what was there.  The tools are taken
    to touch nothing else. *)
Definition unpack (destDir : string) (entries : list Entry)
    (files : gmap string File) : gmap string File :=
  foldl (fun m e => <[path_join destDir (fst e) := snd e]> m) files entries.

(** [execSync(command, { stdio: "pipe" })] for the two archive tools:
    the tool reads [archive] and unpacks under [destDir], or exits
    non-zero, which [execSync] turns into a throw. *)
Definition execSync (command : string) (tool : string -> string + list Entry)
    (archive destDir : string) : M unit :=
  emit (Exec command) ;;;
  fun w =>
    match fs w !! archive with
    | None => (Throw ("Command failed: " +:+ command), w)
    | Some f =>
      match tool (content f) with
      | inl e => (Throw e, w)
      | inr entries => (Ret tt, mkWorld (unpack destDir entries (fs w)) (out w))
      end
    end.

(** *** [extractTarGz] and [extractZip] *)

Definition tmpFile (ext : string) : string :=
  path_join (tmpdir env)
    ("ai-statusline-" +:+ Js.num (Z.of_N (now env)) +:+ ext).

(** [try { fs.unlinkSync(file); } catch (_) {}] *)
Definition cleanup (file : string) : M unit :=
  try_catch (unlinkSync file) (fun _ => ret tt).

Definition extractTarGz (buffer destDir : string) : M unit :=
  let tmp := tmpFile ".tar.gz" in
  writeFileSync tmp buffer ;;;
  try_finally
    (execSync ("tar xzf " +:+ Js.dq +:+ tmp +:+ Js.dq +:+ " -C "
                 +:+ Js.dq +:+ destDir +:+ Js.dq)
              (untar env) tmp destDir)
    (cleanup tmp).

Definition extractZip (buffer destDir : string) : M unit :=
  let tmp := tmpFile ".zip" in
  writeFileSync tmp buffer ;;;
  try_finally
    (execSync ("unzip -o " +:+ Js.dq +:+ tmp +:+ Js.dq +:+ " -d "
                 +:+ Js.dq +:+ destDir +:+ Js.dq)
              (unzip env) tmp destDir)
    (cleanup tmp).

(** *** [install] *)

Definition binDir : string := path_join (package_dir env) "bin".

Definition binPath_of (platform : string) : string :=
  path_join binDir
    (if String.eqb platform "win32" then BINARY_NAME +:+ ".exe" else BINARY_NAME).

(** The line both stubs print. *)
Definition guidance : string :=
  "ai-statusline binary not installed. Run: cargo install --path . in the ai-statusline repo".

(** The stub script: a batch file on win32, a shell script elsewhere. *)
Definition stub_of (platform : string) : string :=
  if String.eqb platform "win32" then
    "@echo off" +:+ Js.nl +:+ "echo " +:+ guidance +:+ Js.nl
      +:+ "exit /b 1" +:+ Js.nl
  else
    "#!/bin/sh" +:+ Js.nl +:+ "echo " +:+ Js.dq +:+ guidance +:+ Js.dq +:+ Js.nl
      +:+ "exit 1" +:+ Js.nl.

(** The [try] block of [install]: download, unpack, make executable. *)
Definition acquire (fuel : nat) (target platform url : string) : M unit :=
  let binPath := binPath_of platform in
  let! data := download fuel url in
  emit (LogDownloaded (String.length data)) ;;;
  mkdirSync binDir ;;;
  (if Js.includes target "windows"
   then extractZip data binDir
   else extractTarGz data binDir) ;;;
  (if negb (String.eqb platform "win32")
   then chmodSync binPath 493
   else ret tt) ;;;
  emit (ConsoleLog ("  Installed to " +:+ binPath)).

(** The [catch] block of [install], given [error.message]: warn, then
    write the stub. *)
Definition fallback (platform message : string) : M unit :=
  let binPath := binPath_of platform in
  emit (ConsoleWarn (Js.nl +:+ "Failed to download pre-built binary: " +:+ message)) ;;;
  emit (ConsoleWarn (Js.nl +:+ "You can build from source instead:")) ;;;
  emit (ConsoleWarn "  cargo install --path .") ;;;
  emit (ConsoleWarn (Js.nl +:+ "Or download manually from:")) ;;;
  emit (ConsoleWarn ("  https://github.com/" +:+ REPO +:+ "/releases")) ;;;
  let stub := stub_of platform in
  mkdirSync binDir ;;;
  writeFileSync binPath stub ;;;
  (if negb (String.eqb platform "win32")
   then chmodSync binPath 493
   else ret tt).

Definition install (fuel : nat) : M unit :=
  let! tp := getPlatformTarget in
  let target := fst tp in
  let platform := snd tp in
  let binPath := binPath_of platform in
  let! installed := existsSync binPath in
  if installed then
    emit (ConsoleLog ("ai-statusline binary already installed at " +:+ binPath))
  else
    let url := getDownloadUrl target in
    emit (ConsoleLog ("Downloading ai-statusline v" +:+ VERSION env +:+ " for "
                        +:+ target +:+ "...")) ;;;
    emit (ConsoleLog ("  URL: " +:+ url)) ;;;
    try_catch (acquire fuel target platform url) (fallback platform).

(** *** The script's last statement: [install().catch(...)]

    The exit status of the process, [None] while the download is still
    following redirects. *)
Definition main (fuel : nat) (w : World) : option Z * World :=
  match install fuel w with
  | (Ret _, w') => (Some 0, w')
  | (Throw e, w') =>
      (Some 1, mkWorld (fs w') (out w' ++ [ConsoleError ("Installation failed: " +:+ e)]))
  | (Exit n, w') => (Some n, w')
  | (OutOfFuel, w') => (None, w')
  end.

End WithEnv.

End Installer.

(** ** The launcher, [bin/cli.js]

    The repository carries the launcher twice, once per package name
    ([claudeline] and [claude-status]); the two differ in that name only,
    which is the parameter [name] below. *)

Module Launcher.

Record SpawnError := mkSpawnError { code : string; message : string }.

(** The fields of [spawnSync]'s result that the launcher reads;
    [status] is [None] for JavaScript's [null]. *)
Record SpawnResult := mkSpawnResult {
  error : option SpawnError;
  status : option Z
}.

Record SpawnOptions := mkSpawnOptions { stdio : string; windowsHide : bool }.

Record Host := mkHost {
  platform : string;                 (* [process.platform] *)
  dirname : string;                  (* [__dirname] *)
  argv : list string;                (* [process.argv] *)
  spawnSync : string -> list string -> SpawnOptions -> SpawnResult
}.

(** What a run of the launcher does: the one child it starts, the lines
    it prints with [console.error], the status it exits with. *)
Record Run := mkRun {
  child : string * list string * SpawnOptions;
  stderr : list string;
  exit_status : Z
}.

Definition sep (h : Host) : string :=
  if String.eqb (platform h) "win32" then Js.backslash else "/".

(** [process.argv.slice(2)] *)
Definition slice2 (xs : list string) : list string := skipn 2 xs.

(** [a ?? b] *)
Definition nullish (a : option Z) (b : Z) : Z :=
  match a with
  | Some x => x
  | None => b
  end.

(** [path.join(__dirname, name)] is written as the concatenation it comes
    to for the absolute, normalised directory that [__dirname] is. *)
Definition cli (name : string) (h : Host) : Run :=
  let ext := if String.eqb (platform h) "win32" then ".exe" else EmptyString in
  let bin := dirname h +:+ sep h +:+ (name +:+ "-bin" +:+ ext) in
  let args := slice2 (argv h) in
  let options := mkSpawnOptions "inherit" false in
  let result := spawnSync h bin args options in
  match error result with
  | Some e =>
      let line :=
        if String.eqb (code e) "ENOENT"
        then name +:+ " binary not found. Try reinstalling: npm install -g " +:+ name
        else message e in
      mkRun (bin, args, options) [line] 1
  | None =>
      mkRun (bin, args, options) [] (nullish (status result) 1)
  end.

Definition claudeline : Host -> Run := cli "claudeline".
Definition claude_status : Host -> Run := cli "claude-status".

End Launcher.

(** ** The package entry point, [index.js]

    Like the launcher it exists once per package name; it exports the
    path of the binary for programmatic use. *)

Module Index.

(** [module.exports.binaryPath], for the module in directory [dirname h]. *)
Definition binaryPath (name : string) (h : Launcher.Host) : string :=
  let ext := if String.eqb (Launcher.platform h) "win32" then ".exe" else EmptyString in
  Launcher.dirname h +:+ Launcher.sep h +:+ "bin" +:+ Launcher.sep h
    +:+ (name +:+ "-bin" +:+ ext).

Definition claudeline : Launcher.Host -> string := binaryPath "claudeline".
Definition claude_status : Launcher.Host -> string := binaryPath "claude-status".

End Index.

(** ** Notions the properties are stated with *)

Module Spec.

Import Installer.

(** The resolver's table read on pairs (operating system, architecture)
    rather than on the joined key. *)
Definition supported : list (string * string * string) :=
  [ ("darwin", "x64", "x86_64-apple-darwin");
    ("darwin", "arm64", "aarch64-apple-darwin");
    ("linux", "x64", "x86_64-unknown-linux-gnu");
    ("linux", "arm64", "aarch64-unknown-linux-gnu");
    ("win32", "x64", "x86_64-pc-windows-msvc") ].

(** The set of keys as the specification words it: every operating
    system of darwin, linux, win32 with every architecture of x64,
    arm64. *)
Definition documented_keys : list (string * string) :=
  list_prod ["darwin"; "linux"; "win32"] ["x64"; "arm64"].

Definition is_supported (env : Env) : Prop :=
  exists t, In (platform env, arch env, t) supported.

(** What the resolver prints before it gives up. *)
Definition unsupported_report (env : Env) : list Event :=
  [ ConsoleError ("Unsupported platform: " +:+ platform env +:+ "-" +:+ arch env);
    ConsoleError
      "Supported platforms: darwin-x64, darwin-arm64, linux-x64, linux-arm64, win32-x64" ].

(** The number of hyphens of a string: a key of the table has one. *)
Fixpoint hyphens (s : string) : nat :=
  match s with
  | EmptyString => 0%nat
  | String c rest => ((if Ascii.eqb c "-" then 1 else 0) + hyphens rest)%nat
  end.

(** The last character of a path: temporary archives and the binary
    differ there. *)
Fixpoint last_char (s : string) : option ascii :=
  match s with
  | EmptyString => None
  | String c rest =>
      match rest with
      | EmptyString => Some c
      | String _ _ => last_char rest
      end
  end.

(** [download] run on its own: its outcome and the requests it issued.
    It neither reads nor changes the files. *)
Definition fetch (env : Env) (fuel : nat) (url : string)
  : Res string * list Event :=
  let r := download env fuel url (mkWorld ∅ []) in (fst r, out (snd r)).

(** A world after more events. *)
Definition grow (w : World) (tr : list Event) : World :=
  mkWorld (fs w) (out w ++ tr).

(** The two archive commands, as [execSync] receives them. *)
Definition tar_command (tmp destDir : string) : string :=
  "tar xzf " +:+ Js.dq +:+ tmp +:+ Js.dq +:+ " -C " +:+ Js.dq +:+ destDir +:+ Js.dq.

Definition unzip_command (tmp destDir : string) : string :=
  "unzip -o " +:+ Js.dq +:+ tmp +:+ Js.dq +:+ " -d " +:+ Js.dq +:+ destDir +:+ Js.dq.

(** The files an extraction leaves behind: the temporary archive is
    written, the tool unpacks if it can, and the archive is removed
    unless the removal itself fails. *)
Definition extract_files (env : Env) (tool : string -> string + list Entry)
    (ext buffer destDir : string) (files : gmap string File) : gmap string File :=
  let tmp := tmpFile env ext in
  let m := match files !! tmp with
           | Some f => mode f
           | None => default_mode env
           end in
  let written := <[tmp := mkFile buffer m]> files in
  let unpacked := match tool buffer with
                  | inl _ => written
                  | inr entries => unpack env destDir entries written
                  end in
  match fs_fault env (OpUnlink tmp) with
  | Some _ => unpacked
  | None => delete tmp unpacked
  end.

Definition extract_result (tool : string -> string + list Entry) (buffer : string)
  : Res unit :=
  match tool buffer with
  | inl e => Throw e
  | inr _ => Ret tt
  end.

(** The destination of the binary on this host, its fallback content,
    and the messages [install] frames its work with. *)
Definition binPath (env : Env) : string := binPath_of env (platform env).

Definition stub (env : Env) : string := stub_of (platform env).

Definition already_installed_log (env : Env) : Event :=
  ConsoleLog ("ai-statusline binary already installed at " +:+ binPath env).

Definition installed_log (env : Env) : Event :=
  ConsoleLog ("  Installed to " +:+ binPath env).

Definition announce (env : Env) (target : string) : list Event :=
  [ ConsoleLog ("Downloading ai-statusline v" +:+ VERSION env +:+ " for "
                  +:+ target +:+ "...");
    ConsoleLog ("  URL: " +:+ getDownloadUrl env target) ].

Definition warnings (message : string) : list Event :=
  [ ConsoleWarn (Js.nl +:+ "Failed to download pre-built binary: " +:+ message);
    ConsoleWarn (Js.nl +:+ "You can build from source instead:");
    ConsoleWarn "  cargo install --path .";
    ConsoleWarn (Js.nl +:+ "Or download manually from:");
    ConsoleWarn ("  https://github.com/" +:+ REPO +:+ "/releases") ].

(** The system calls of the fallback go through ([chmodSync] is not
    called on win32). *)
Definition stub_writable (env : Env) : Prop :=
  fs_fault env (OpMkdir (binDir env)) = None /\
  fs_fault env (OpWrite (binPath env)) = None /\
  (platform env <> "win32" -> fs_fault env (OpChmod (binPath env)) = None).

(** The first of them that fails, with its message. *)
Definition stub_fault (env : Env) (e : string) : Prop :=
  fs_fault env (OpMkdir (binDir env)) = Some e \/
  fs_fault env (OpMkdir (binDir env)) = None /\
  (fs_fault env (OpWrite (binPath env)) = Some e \/
   fs_fault env (OpWrite (binPath env)) = None /\
   platform env <> "win32" /\
   fs_fault env (OpChmod (binPath env)) = Some e).

Definition is_stub_write (env : Env) (e : Event) : Prop :=
  exists d, e = FsWrite (binPath env) d.

(** The archive tool [install] picks for a target. *)
Definition archive_tool (env : Env) (target : string) : string -> string + list Entry :=
  if Js.includes target "windows" then unzip env else untar env.

(** What a successful run on a POSIX host does after the download. *)
Definition success_trace (env : Env) (data : string) : list Event :=
  [ LogDownloaded (String.length data);
    FsMkdir (binDir env);
    FsWrite (tmpFile env ".tar.gz") data;
    Exec (tar_command (tmpFile env ".tar.gz") (binDir env));
    FsUnlink (tmpFile env ".tar.gz");
    FsChmod (binPath env) 493;
    installed_log env ].

(** A chain of followed redirects: the [n]-th request, for [url], is
    answered by a 3xx response whose Location is the next hop, and so on
    until [final] answers the last hop. *)
Fixpoint follows (env : Env) (n : nat) (secure : bool) (url : string)
    (hops : list (Z * string)) (final : Response) : Prop :=
  match hops with
  | [] => http_get env n secure url = NetResponse final
  | (code, loc) :: rest =>
      (exists b, http_get env n secure url
                 = NetResponse (mkResponse code (Some loc) b)) /\
      300 <= code < 400 /\
      loc <> EmptyString /\
      follows env (S n) (Js.startsWith loc "https") loc rest final
  end.

(** A response the callback does not follow. *)
Definition terminal (r : Response) : Prop :=
  ~ (300 <= statusCode r < 400 /\ Js.truthy (location r) = true).

(** How a terminal response settles the promise of [download url]. *)
Definition settle (url : string) (r : Response) : Res string :=
  if Z.eqb (statusCode r) 200 then
    match body r with
    | inl data => Ret data
    | inr e => Throw e
    end
  else
    Throw ("Download failed with status " +:+ Js.num (statusCode r) +:+ ": " +:+ url).

Definition requests_of (url : string) (hops : list (Z * string)) : list Event :=
  HttpGet true url
    :: map (fun h => HttpGet (Js.startsWith (snd h) "https") (snd h)) hops.

(** Two hosts that compute the same destination. *)
Definition same_host (env env2 : Env) : Prop :=
  platform env2 = platform env /\ arch env2 = arch env /\
  package_dir env2 = package_dir env.

(** A chain of followed redirects that ends in a transport error: the
    request for the last hop fails with message [e]. *)
Fixpoint breaks (env : Env) (n : nat) (secure : bool) (url : string)
    (hops : list (Z * string)) (e : string) : Prop :=
  match hops with
  | [] => http_get env n secure url = NetError e
  | (code, loc) :: rest =>
      (exists b, http_get env n secure url
                 = NetResponse (mkResponse code (Some loc) b)) /\
      300 <= code < 400 /\
      loc <> EmptyString /\
      breaks env (S n) (Js.startsWith loc "https") loc rest e
  end.

(** Every request is answered by a redirect that the callback follows. *)
Definition redirects_forever (env : Env) : Prop :=
  forall n secure url,
    exists code loc b,
      http_get env n secure url = NetResponse (mkResponse code (Some loc) b) /\
      300 <= code < 400 /\ loc <> EmptyString.

(** The system calls and commands [install] may issue on a host: the bin
    directory is created, the temporary archive written and removed, the
    archive tool run on it, the stub written to the destination and the
    destination made executable. *)
Definition footprint (env : Env) (ev : Event) : Prop :=
  match ev with
  | FsMkdir p => p = binDir env
  | FsWrite p d =>
      p = binPath env /\ d = stub env \/
      p = tmpFile env ".tar.gz" \/ p = tmpFile env ".zip"
  | FsChmod p m => p = binPath env /\ m = 493
  | FsUnlink p => p = tmpFile env ".tar.gz" \/ p = tmpFile env ".zip"
  | Exec c =>
      c = tar_command (tmpFile env ".tar.gz") (binDir env) \/
      c = unzip_command (tmpFile env ".zip") (binDir env)
  | _ => True
  end.

(** A path that is neither a temporary archive of this host nor inside
    its bin directory. *)
Definition outside (env : Env) (p : string) : Prop :=
  p <> tmpFile env ".tar.gz" /\ p <> tmpFile env ".zip" /\
  forall name, p <> path_join env (binDir env) name.

(** A computation that issues only events in [P] and leaves the files at
    the paths in [Q] as they are. *)
Definition keeps {A : Type} (P : Event -> Prop) (Q : string -> Prop) (c : M A)
  : Prop :=
  forall w r w',
    c w = (r, w') ->
    (exists tr, out w' = (out w ++ tr)%list /\ Forall P tr) /\
    (forall p, Q p -> fs w' !! p = fs w !! p).

(** The launcher of a package whose entry point sits in [dirname h]. *)
Definition launcher_of (h : Launcher.Host) : Launcher.Host :=
  Launcher.mkHost (Launcher.platform h)
    (Launcher.dirname h +:+ Launcher.sep h +:+ "bin")
    (Launcher.argv h) (Launcher.spawnSync h).

Definition is_request (e : Event) : Prop :=
  match e with
  | HttpGet _ _ => True
  | _ => False
  end.

(** What [download] can add to the trace: requests, and the report of
    an exception thrown where nothing catches it. *)
Definition is_traffic (e : Event) : Prop :=
  match e with
  | HttpGet _ _ | Uncaught _ => True
  | _ => False
  end.

(** The trace of a download that died in its response callback: the
    requests made until then, and the uncaught exception [e] last. *)
Definition crashed (tr : list Event) (e : string) : Prop :=
  exists reqs, tr = (reqs ++ [Uncaught e])%list /\ Forall is_request reqs.


(** The artifact naming convention of the release page. *)
Definition release_url (repo binaryName version target archiveExt : string)
  : string :=
  repo +:+ "/releases/download/v" +:+ version +:+ "/" +:+ binaryName +:+ "-v"
    +:+ version +:+ "-" +:+ target +:+ "." +:+ archiveExt.

Definition archiveExt (target : string) : string :=
  if Js.includes target "windows" then "zip" else "tar.gz".

End Spec.

(** ** Sample hosts, on which the statements below are exercised *)

Module Sample.

Import Installer.

Definition host (p a : string) (net : nat -> bool -> string -> NetResult)
    (tar : string -> string + list Entry) (faults : FsOp -> option string) : Env :=
  mkEnv p a "1.2.0" "/pkg" "/tmp" 1700000000000%N 420 net tar
    (fun _ => inl "unzip: cannot find zipfile directory") faults (fun _ => None).

Definition offline : nat -> bool -> string -> NetResult :=
  fun _ _ _ => NetError "getaddrinfo ENOTFOUND github.com".

Definition no_tar : string -> string + list Entry :=
  fun _ => inl "Command failed: tar".

Definition no_faults : FsOp -> option string := fun _ => None.

Definition win_arm : Env := host "win32" "arm64" offline no_tar no_faults.
Definition linux_offline : Env := host "linux" "x64" offline no_tar no_faults.
Definition freebsd : Env := host "freebsd" "x64" offline no_tar no_faults.

Definition boot : World := mkWorld ∅ [].

Definition ok (data : string) : NetResult :=
  NetResponse (mkResponse 200 None (inl data)).

Definition moved (code : Z) (loc : option string) : NetResult :=
  NetResponse (mkResponse code loc (inl EmptyString)).

(** An archive that holds the binary, and one that holds only a readme. *)
Definition good_tar : string -> string + list Entry :=
  fun a => inr [("ai-statusline", mkFile ("ELF:" +:+ a) 420)].

Definition empty_zip : string -> string + list Entry :=
  fun _ => inr [("README.md", mkFile "read me" 420)].

(** The release page answers at once. *)
Definition direct : Env :=
  host "linux" "x64" (fun _ _ _ => ok "ARCHIVE") good_tar no_faults.

(** The release page redirects once, to a plain-http mirror. *)
Definition mirror : string := "http://mirror.example/ai-statusline.tar.gz".

Definition redirected : Env :=
  host "darwin" "arm64"
    (fun n _ _ => match n with
                  | O => moved 302 (Some mirror)
                  | _ => ok "ARCHIVE"
                  end)
    good_tar no_faults.

(** A redirect whose Location header is there but empty, and one with no
    Location header at all. *)
Definition empty_location : Env :=
  host "linux" "x64"
    (fun n _ _ => match n with
                  | O => moved 302 (Some EmptyString)
                  | _ => ok "ARCHIVE"
                  end)
    good_tar no_faults.

Definition no_location : Env :=
  host "linux" "arm64" (fun _ _ _ => moved 301 None) good_tar no_faults.

(** A Windows host whose archive unpacks, without the binary in it. *)
Definition win_empty_zip : Env :=
  mkEnv "win32" "x64" "1.2.0" "C:" "T:" 1700000000000%N 420
    (fun _ _ _ => ok "ZIP") no_tar empty_zip no_faults (fun _ => None).

(** A host on which nothing can be written. *)
Definition readonly : Env :=
  host "linux" "x64" offline no_tar
    (fun op => match op with
               | OpWrite _ => Some "EACCES: permission denied"
               | _ => None
               end).

(** A host whose temporary archives cannot be removed. *)
Definition sticky_tmp : Env :=
  host "linux" "x64" (fun _ _ _ => ok "ARCHIVE") good_tar
    (fun op => match op with
               | OpUnlink _ => Some "EPERM: operation not permitted"
               | _ => None
               end).

Definition installed_files : gmap string File :=
  {[ "/pkg/bin/ai-statusline" := mkFile "ELF" 493 ]}.

(** A mirror that drops the connection after the redirect. *)
Definition dropped : Env :=
  host "linux" "x64"
    (fun n _ _ => match n with
                  | O => moved 302 (Some mirror)
                  | _ => NetError "socket hang up"
                  end)
    good_tar no_faults.

(** A release page whose body breaks off. *)
Definition truncated : Env :=
  host "linux" "x64"
    (fun _ _ _ => NetResponse (mkResponse 200 None (inr "aborted")))
    good_tar no_faults.

(** A server that redirects every request to the same place. *)
Definition looping : Env :=
  host "linux" "x64" (fun _ _ _ => moved 307 (Some mirror)) good_tar no_faults.



(** A Windows host whose archive holds the binary. *)
Definition win_good_zip : Env :=
  mkEnv "win32" "x64" "1.2.0" "C:" "T:" 1700000000000%N 420
    (fun _ _ _ => ok "ZIP") no_tar
    (fun a => inr [("ai-statusline.exe", mkFile ("MZ:" +:+ a) 420)]) no_faults
    (fun _ => None).

(** A host whose temp directory is full. *)
Definition full_tmp : Env :=
  host "linux" "x64" (fun _ _ _ => ok "ARCHIVE") good_tar
    (fun op => match op with
               | OpWrite "/tmp/ai-statusline-1700000000000.tar.gz" =>
                   Some "ENOSPC: no space left on device"
               | _ => None
               end).

(** A host whose temp directory fills up after three bytes of the
    archive. *)
Definition half_written : Env :=
  mkEnv "linux" "x64" "1.2.0" "/pkg" "/tmp" 1700000000000%N 420
    (fun _ _ _ => ok "ARCHIVE") good_tar
    (fun _ => inl "unzip: cannot find zipfile directory")
    (fun op => match op with
               | OpWrite "/tmp/ai-statusline-1700000000000.tar.gz" =>
                   Some "ENOSPC: no space left on device"
               | _ => None
               end)
    (fun _ => Some 3%nat).

(** A release page that redirects to a relative reference, on which
    [http.get] throws. *)
Definition relative : Env :=
  host "linux" "x64"
    (fun n _ _ => match n with
                  | O => moved 302 (Some "/releases/asset")
                  | _ => NetThrow "Invalid URL"
                  end)
    good_tar no_faults.


(** The same host one millisecond later. *)
Definition direct_later : Env :=
  mkEnv "linux" "x64" "1.2.0" "/pkg" "/tmp" 1700000000001%N 420
    (fun _ _ _ => ok "ARCHIVE") good_tar
    (fun _ => inl "unzip: cannot find zipfile directory") no_faults (fun _ => None).

(** The entry point's host, for the package installed under [/pkg]. *)
Definition package_host : Launcher.Host :=
  Launcher.mkHost "linux" "/pkg" ["node"; "/pkg/bin/cli.js"]
    (fun _ _ _ => Launcher.mkSpawnResult None (Some 0)).

(** Launcher hosts: one whose binary is missing, one whose child was
    killed by a signal and so has no status. *)
Definition enoent : Launcher.Host :=
  Launcher.mkHost "linux" "/pkg/bin" ["node"; "/pkg/bin/cli.js"; "--version"]
    (fun _ _ _ =>
       Launcher.mkSpawnResult
         (Some (Launcher.mkSpawnError "ENOENT" "spawnSync /pkg/bin/claudeline-bin ENOENT"))
         None).

Definition eacces : Launcher.Host :=
  Launcher.mkHost "linux" "/pkg/bin" ["node"; "/pkg/bin/cli.js"; "--version"]
    (fun _ _ _ =>
       Launcher.mkSpawnResult
         (Some (Launcher.mkSpawnError "EACCES" "spawnSync /pkg/bin/claudeline-bin EACCES"))
         None).

Definition killed : Launcher.Host :=
  Launcher.mkHost "win32" "C:" ["node"; "cli.js"; "a"; "b"]
    (fun _ _ _ => Launcher.mkSpawnResult None None).

Definition exits (n : Z) : Launcher.Host :=
  Launcher.mkHost "darwin" "/pkg/bin" ["node"; "/pkg/bin/cli.js"]
    (fun _ _ _ => Launcher.mkSpawnResult None (Some n)).

End Sample.

(** ** Properties of the resolver and of the download URL *)

Module ResolverProofs.

Import Installer Spec.

Lemma hyphens_app (a b : string) :
  hyphens (a +:+ b) = (hyphens a + hyphens b)%nat.
Proof.
  induction a as [|c a IH]; simpl; [reflexivity|].
  rewrite IH. lia.
Qed.

Lemma hyphens_key (p a : string) :
  hyphens (platform_key p a) = (hyphens p + 1 + hyphens a)%nat.
Proof.
  unfold platform_key. rewrite !hyphens_app. simpl. lia.
Qed.

(** Two hyphen-free prefixes followed by a hyphen split a string at the
    same place. *)
Lemma hyphen_split (p k1 a k2 : string) :
  hyphens p = 0%nat -> hyphens k1 = 0%nat ->
  p +:+ "-" +:+ a = k1 +:+ "-" +:+ k2 -> p = k1 /\ a = k2.
Proof.
  revert k1. induction p as [|c p IH]; intros [|d k1] Hp Hk Heq; simpl in *.
  - injection Heq as ->. auto.
  - injection Heq as <- _. simpl in Hk. discriminate.
  - injection Heq as -> _. simpl in Hp. discriminate.
  - injection Heq as -> Heq.
    destruct (Ascii.eqb d "-"); [discriminate|].
    destruct (IH k1 Hp Hk Heq) as [-> ->]. auto.
Qed.

Lemma key_inv (p a k1 k2 : string) :
  hyphens k1 = 0%nat -> hyphens k2 = 0%nat ->
  platform_key p a = platform_key k1 k2 -> p = k1 /\ a = k2.
Proof.
  intros H1 H2 Heq.
  assert (Hc : hyphens (platform_key p a) = 1%nat).
  { rewrite Heq, hyphens_key. lia. }
  rewrite hyphens_key in Hc.
  apply hyphen_split; [lia | assumption | exact Heq].
Qed.

(** A hit in the table comes from one of the five pairs. *)
Lemma get_targets_inv (p a t : string) :
  Js.get targets (platform_key p a) = Some t -> In (p, a, t) supported.
Proof.
  unfold targets, supported. cbn [Js.get].
  repeat match goal with
  | |- context [String.eqb ?k (platform_key p a)] =>
      destruct (String.eqb_spec k (platform_key p a)) as [Hk|_];
      [ intros [= <-];
        symmetry in Hk;
        change k with (platform_key
                         ltac:(match k with
                               | "darwin-x64" => exact "darwin"
                               | "darwin-arm64" => exact "darwin"
                               | "linux-x64" => exact "linux"
                               | "linux-arm64" => exact "linux"
                               | "win32-x64" => exact "win32"
                               end)
                         ltac:(match k with
                               | "darwin-x64" => exact "x64"
                               | "darwin-arm64" => exact "arm64"
                               | "linux-x64" => exact "x64"
                               | "linux-arm64" => exact "arm64"
                               | "win32-x64" => exact "x64"
                               end)) in Hk;
        apply key_inv in Hk; [|reflexivity|reflexivity];
        destruct Hk as [-> ->]; simpl; tauto
      | ]
  end.
  discriminate.
Qed.

End ResolverProofs.

Module ResolverClaims.

Import Installer Spec ResolverProofs.

Lemma get_targets_supported (p a t : string) :
  In (p, a, t) supported -> Js.get targets (platform_key p a) = Some t.
Proof.
  unfold supported. simpl.
  intros H. repeat destruct H as [H|H]; try contradiction;
    injection H as <- <- <-; reflexivity.
Qed.

Lemma get_targets_unsupported (p a : string) :
  (forall t, ~ In (p, a, t) supported) -> Js.get targets (platform_key p a) = None.
Proof.
  intros Hno. destruct (Js.get targets (platform_key p a)) as [t|] eqn:E; [|reflexivity].
  exfalso. exact (Hno t (get_targets_inv _ _ _ E)).
Qed.

Lemma supported_target_truthy (p a t : string) :
  In (p, a, t) supported -> Js.truthy (Some t) = true.
Proof.
  unfold supported. simpl.
  intros H. repeat destruct H as [H|H]; try contradiction;
    injection H as <- <- <-; reflexivity.
Qed.

Lemma getPlatformTarget_supported (env : Env) (w : World) (t : string) :
  In (platform env, arch env, t) supported ->
  getPlatformTarget env w = (Ret (t, platform env), w).
Proof.
  intros Hin. unfold getPlatformTarget.
  rewrite (get_targets_supported _ _ _ Hin), (supported_target_truthy _ _ _ Hin).
  reflexivity.
Qed.

Lemma getPlatformTarget_unsupported (env : Env) (w : World) :
  (forall t, ~ In (platform env, arch env, t) supported) ->
  getPlatformTarget env w
  = (Exit 1, mkWorld (fs w) (out w ++ unsupported_report env)).
Proof.
  intros Hno. unfold getPlatformTarget.
  rewrite (get_targets_unsupported _ _ Hno).
  unfold unsupported_report, platform_key, bind, emit, process_exit. simpl.
  rewrite <- app_assoc. reflexivity.
Qed.

Lemma main_unsupported (env : Env) (w : World) (fuel : nat) :
  (forall t, ~ In (platform env, arch env, t) supported) ->
  main env fuel w = (Some 1, mkWorld (fs w) (out w ++ unsupported_report env)).
Proof.
  intros Hno. unfold main, install, bind.
  rewrite (getPlatformTarget_unsupported env w Hno). reflexivity.
Qed.

(** C2, as the code has it.  The table of [getPlatformTarget] holds five
    pairs: darwin and linux with x64 and arm64, and win32 with x64 only.
    On each of them the resolver returns the table's target string and
    leaves the world untouched.  On every other pair, win32 with arm64
    among them, it prints the unmapped key, then the five supported keys
    joined by commas, and ends the process with status 1. *)
Theorem getPlatformTarget_table (env : Env) (w : World) :
  (forall t, In (platform env, arch env, t) supported ->
     getPlatformTarget env w = (Ret (t, platform env), w)) /\
  ((forall t, ~ In (platform env, arch env, t) supported) ->
     getPlatformTarget env w
     = (Exit 1, mkWorld (fs w) (out w ++ unsupported_report env)) /\
     forall fuel,
       main env fuel w = (Some 1, mkWorld (fs w) (out w ++ unsupported_report env))).
Proof.
  split.
  - intros t Hin. apply getPlatformTarget_supported, Hin.
  - intros Hno. split; [apply getPlatformTarget_unsupported, Hno|].
    intros fuel. apply main_unsupported, Hno.
Qed.

Lemma getPlatformTarget_table_witness :
  getPlatformTarget Sample.linux_offline Sample.boot
  = (Ret ("x86_64-unknown-linux-gnu", "linux"), Sample.boot) /\
  main Sample.freebsd 3 Sample.boot
  = (Some 1, mkWorld ∅ (unsupported_report Sample.freebsd)).
Proof.
  split.
  - apply (proj1 (getPlatformTarget_table Sample.linux_offline Sample.boot)).
    simpl. tauto.
  - apply (proj2 (getPlatformTarget_table Sample.freebsd Sample.boot)).
    intros t. simpl. intros H.
    repeat destruct H as [H|H]; try discriminate H; exact H.
Defined.

(** C2 as worded fails: win32 with arm64 is one of the six documented
    keys, and the resolver ends the process on it. *)
Lemma win32_arm64_unresolved :
  In (platform Sample.win_arm, arch Sample.win_arm) documented_keys /\
  getPlatformTarget Sample.win_arm Sample.boot
  = (Exit 1, mkWorld ∅ (unsupported_report Sample.win_arm)).
Proof.
  split; [simpl; tauto | reflexivity].
Qed.

Lemma app_assoc_s (a b c : string) : (a +:+ b) +:+ c = a +:+ (b +:+ c).
Proof. induction a as [|x a IH]; simpl; [reflexivity | now rewrite IH]. Qed.

(** C5.  The download URL is the release page of the repository, the tag
    [v<version>] and the file [<binaryName>-v<version>-<target>.<ext>],
    with the version of [package.json]; the extension is [zip] exactly
    when the target string contains [windows], which among the resolver's
    targets is exactly the win32 one, and [tar.gz] otherwise.  With
    version 1.2.0 the linux x64 target gives the documented URL. *)
Theorem getDownloadUrl_convention (env : Env) (target : string) :
  getDownloadUrl env target
  = release_url ("https://github.com/" +:+ REPO) BINARY_NAME (VERSION env)
      target (archiveExt target) /\
  (Js.includes target "windows" = true -> archiveExt target = "zip") /\
  (Js.includes target "windows" = false -> archiveExt target = "tar.gz") /\
  (forall p a t, In (p, a, t) supported ->
     Js.includes t "windows" = String.eqb p "win32") /\
  (VERSION env = "1.2.0" ->
     getDownloadUrl env "x86_64-unknown-linux-gnu"
     = "https://github.com/mstuart/ai-statusline/releases/download/v1.2.0/ai-statusline-v1.2.0-x86_64-unknown-linux-gnu.tar.gz").
Proof.
  split; [|split; [|split; [|split]]].
  - unfold getDownloadUrl, release_url, archiveExt.
    rewrite !app_assoc_s. reflexivity.
  - unfold archiveExt. now intros ->.
  - unfold archiveExt. now intros ->.
  - intros p a t H. unfold supported in H. simpl in H.
    repeat destruct H as [H|H]; try contradiction;
      injection H as <- <- <-; reflexivity.
  - intros Hv. unfold getDownloadUrl. rewrite Hv. reflexivity.
Qed.

Lemma getDownloadUrl_convention_witness :
  getDownloadUrl Sample.linux_offline "x86_64-unknown-linux-gnu"
  = "https://github.com/mstuart/ai-statusline/releases/download/v1.2.0/ai-statusline-v1.2.0-x86_64-unknown-linux-gnu.tar.gz" /\
  archiveExt "x86_64-pc-windows-msvc" = "zip" /\
  archiveExt "aarch64-apple-darwin" = "tar.gz" /\
  Js.includes "x86_64-pc-windows-msvc" "windows" = String.eqb "win32" "win32".
Proof.
  pose proof (getDownloadUrl_convention Sample.linux_offline "x86_64-pc-windows-msvc")
    as (_ & Hzip & _ & Hsup & _).
  pose proof (getDownloadUrl_convention Sample.linux_offline "aarch64-apple-darwin")
    as (_ & _ & Htgz & _ & Hex).
  split; [apply Hex; reflexivity|].
  split; [apply Hzip; reflexivity|].
  split; [apply Htgz; reflexivity|].
  apply (Hsup "win32" "x64"). simpl. tauto.
Defined.

End ResolverClaims.

(** ** Properties of the installer's parts *)

Module InstallerProofs.

Import Installer Spec.

Lemma last_char_app (a b : string) (c : ascii) :
  last_char b = Some c -> last_char (a +:+ b) = Some c.
Proof.
  intros Hb. induction a as [|x a IH]; simpl; [exact Hb|].
  destruct (a +:+ b) eqn:E; [|exact IH].
  simpl in IH. discriminate.
Qed.

Lemma tmpFile_last (env : Env) (ext : string) (c : ascii) :
  last_char ext = Some c -> last_char (tmpFile env ext) = Some c.
Proof.
  intros H. unfold tmpFile, path_join.
  do 4 apply last_char_app. exact H.
Qed.

Lemma binPath_last (env : Env) (p : string) :
  last_char (binPath_of env p) = Some "e"%char.
Proof.
  unfold binPath_of, path_join.
  do 2 apply last_char_app.
  destruct (String.eqb p "win32"); reflexivity.
Qed.

(** The temporary archive is never the destination binary. *)
Lemma tmp_ne_bin (env : Env) (p : string) :
  tmpFile env ".tar.gz" <> binPath_of env p /\
  tmpFile env ".zip" <> binPath_of env p.
Proof.
  split; intros E; pose proof (binPath_last env p) as Hb; rewrite <- E in Hb.
  - rewrite (tmpFile_last env ".tar.gz" "z"%char eq_refl) in Hb. discriminate.
  - rewrite (tmpFile_last env ".zip" "p"%char eq_refl) in Hb. discriminate.
Qed.

(** *** [download] only talks to the network *)

Lemma grow_nil (w : World) : grow w [] = w.
Proof. destruct w. unfold grow. simpl. now rewrite app_nil_r. Qed.

Lemma grow_grow (w : World) (a b : list Event) :
  grow (grow w a) b = grow w (a ++ b).
Proof. unfold grow. simpl. now rewrite app_assoc. Qed.

Ltac settle_now :=
  eexists _, (@nil Event); split; [apply Forall_nil|];
  split; cycle 1;
  [intros w; rewrite grow_nil; reflexivity | intros c Hc; discriminate Hc].

Lemma crashed_cons (tr : list Event) (e : string) (s : bool) (u : string) :
  crashed tr e -> crashed (HttpGet s u :: tr) e.
Proof.
  intros (reqs & -> & Hreqs). exists (HttpGet s u :: reqs).
  split; [reflexivity | constructor; [exact I | exact Hreqs]].
Qed.

(** The callback only adds traffic to the trace, and ends the process
    in one way only: by the exception of a refused redirect. *)
Lemma handler_frame (env : Env) (fuel : nat) (url : string) :
  forall n r,
    exists res tr,
      Forall is_traffic tr /\
      (forall c, res = Exit c -> c = 1 /\ exists e, crashed tr e) /\
      forall w, handler env fuel url n r w = (res, grow w tr).
Proof.
  induction fuel as [|fuel IH]; intros n r; simpl.
  - destruct (_ && _ && _); [settle_now|].
    destruct (negb _); [settle_now|].
    destruct (body r); settle_now.
  - destruct (_ && _ && _).
    + destruct (http_get env n _ _) as [e|e|r'].
      * eexists (Exit 1), [Uncaught e].
        split; [constructor; [exact I | constructor]|].
        split; [|intros w; reflexivity].
        intros c [= <-]. split; [reflexivity|].
        exists e, []. split; [reflexivity | constructor].
      * eexists (Throw e), [HttpGet _ _].
        split; [constructor; [exact I | constructor]|].
        split; [intros c Hc; discriminate Hc|]. intros w. reflexivity.
      * destruct (IH (S n) r') as (res & tr & Htr & Hres & Hrun).
        eexists res, (HttpGet _ _ :: tr).
        split; [constructor; [exact I | exact Htr]|].
        split.
        { intros c Hc. destruct (Hres c Hc) as [-> [e He]].
          split; [reflexivity|]. exists e. apply crashed_cons, He. }
        intros w. unfold bind, emit. rewrite Hrun. unfold grow. simpl.
        rewrite <- app_assoc. simpl.
        destruct res; try reflexivity.
    + destruct (negb _); [settle_now|].
      destruct (body r); settle_now.
Qed.

Lemma download_frame (env : Env) (fuel : nat) (url : string) (w : World) :
  download env fuel url w
  = (fst (fetch env fuel url), grow w (snd (fetch env fuel url))).
Proof.
  unfold fetch, download, bind, emit, throw. simpl.
  destruct (http_get env 0%nat true url) as [e|e|r];
    [simpl; rewrite grow_nil; reflexivity | reflexivity |].
  destruct (handler_frame env fuel url 1%nat r) as (res & tr & _ & Hres & Hrun).
  rewrite !Hrun. unfold grow. simpl. rewrite <- app_assoc.
  destruct res; reflexivity.
Qed.

Lemma fetch_requests (env : Env) (fuel : nat) (url : string) :
  Forall is_traffic (snd (fetch env fuel url)) /\
  forall c, fst (fetch env fuel url) = Exit c ->
            c = 1 /\ exists e, crashed (snd (fetch env fuel url)) e.
Proof.
  unfold fetch, download, bind, emit, throw. simpl.
  destruct (http_get env 0%nat true url) as [e|e|r].
  - simpl. split; [constructor | intros c Hc; discriminate Hc].
  - simpl. split; [constructor; [exact I | constructor] | intros c Hc; discriminate Hc].
  - destruct (handler_frame env fuel url 1%nat r) as (res & tr & Htr & Hres & Hrun).
    rewrite Hrun. unfold grow. simpl.
    destruct res; simpl; (split; [constructor; [exact I | exact Htr] | ]);
      try (intros c Hc; discriminate Hc).
    intros c Hc. destruct (Hres c Hc) as [-> [e He]].
    split; [reflexivity|]. exists e. apply crashed_cons, He.
Qed.

(** *** Extraction *)

Ltac run_extract :=
  unfold writeFileSync, try_finally, execSync, cleanup, try_catch, unlinkSync,
    bind, emit, ret, throw, extract_files, extract_result;
  intros ->; cbn [fs out fst snd];
  rewrite lookup_insert_eq; cbn [content];
  repeat match goal with
  | |- context [match ?t ?b with inl _ => _ | inr _ => _ end] => destruct (t b)
  | |- context [match fs_fault ?e ?o with Some _ => _ | None => _ end] =>
      destruct (fs_fault e o)
  end;
  cbn [fs out fst snd];
  rewrite <- ?app_assoc; cbn [app];
  repeat match goal with
  | |- context [match ?m !! ?k with Some _ => _ | None => _ end] =>
      let E := fresh "E" in destruct (m !! k) eqn:E
  end;
  cbn [fs out fst snd];
  rewrite <- ?app_assoc; cbn [app];
  try reflexivity.

Lemma extractTarGz_run (env : Env) (buffer destDir : string) (w : World) :
  fs_fault env (OpWrite (tmpFile env ".tar.gz")) = None ->
  extractTarGz env buffer destDir w
  = (extract_result (untar env) buffer,
     mkWorld (extract_files env (untar env) ".tar.gz" buffer destDir (fs w))
       (out w ++ [ FsWrite (tmpFile env ".tar.gz") buffer;
                   Exec (tar_command (tmpFile env ".tar.gz") destDir);
                   FsUnlink (tmpFile env ".tar.gz") ])).
Proof.
  unfold extractTarGz. run_extract.
  all: rewrite (delete_id _ _ E); reflexivity.
Qed.

Lemma extractZip_run (env : Env) (buffer destDir : string) (w : World) :
  fs_fault env (OpWrite (tmpFile env ".zip")) = None ->
  extractZip env buffer destDir w
  = (extract_result (unzip env) buffer,
     mkWorld (extract_files env (unzip env) ".zip" buffer destDir (fs w))
       (out w ++ [ FsWrite (tmpFile env ".zip") buffer;
                   Exec (unzip_command (tmpFile env ".zip") destDir);
                   FsUnlink (tmpFile env ".zip") ])).
Proof.
  unfold extractZip. run_extract.
  all: rewrite (delete_id _ _ E); reflexivity.
Qed.

(** *** The fallback *)

Ltac leaf :=
  intros [= <- <-]; cbn [fs out];
  eexists; split; [rewrite <- ?app_assoc; cbn [app]; reflexivity|].

Lemma fallback_post (env : Env) (e : string) (w : World) (r : Res unit) (w' : World) :
  fallback env (platform env) e w = (r, w') ->
  exists tr,
    out w' = (out w ++ warnings e ++ tr)%list /\
    match r with
    | Ret _ =>
        stub_writable env /\
        tr = FsMkdir (binDir env) :: FsWrite (binPath env) (stub env)
             :: (if String.eqb (platform env) "win32" then []
                 else [FsChmod (binPath env) 493]) /\
        exists m, fs w' !! binPath env = Some (mkFile (stub env) m) /\
                  (platform env <> "win32" -> m = 493)
    | Throw e' =>
        stub_fault env e' /\
        (tr = [FsMkdir (binDir env)] \/
         tr = [FsMkdir (binDir env); FsWrite (binPath env) (stub env)] \/
         tr = [FsMkdir (binDir env); FsWrite (binPath env) (stub env);
               FsChmod (binPath env) 493])
    | _ => False
    end.
Proof.
  unfold fallback, mkdirSync, writeFileSync, chmodSync, bind, emit, ret, throw.
  unfold stub_writable, stub_fault.
  fold (binPath env) (stub env).
  cbn [fs out fst snd].
  destruct (fs_fault env (OpMkdir (binDir env))) as [e1|] eqn:Emk.
  { leaf. split; auto. }
  destruct (fs_fault env (OpWrite (binPath env))) as [e2|] eqn:Ewr.
  { destruct (fs_partial env (binPath env)); leaf; split; auto. }
  cbn [fs out fst snd].
  destruct (String.eqb_spec (platform env) "win32") as [Hw|Hw]; cbn [negb].
  { leaf. split; [repeat split; congruence|]. split; [reflexivity|].
    eexists. split; [apply lookup_insert_eq | congruence]. }
  cbn [fs out fst snd].
  destruct (fs_fault env (OpChmod (binPath env))) as [e3|] eqn:Ech.
  { leaf. split; auto 10. }
  cbn [fs out fst snd]. rewrite lookup_insert_eq. cbn [content].
  leaf. split; [auto|]. split; [reflexivity|].
  exists 493. split; [apply lookup_insert_eq | auto].
Qed.

(** *** The guarded steps *)

Ltac not_stub env :=
  let d := fresh "d" in let Hd := fresh "Hd" in
  intros [d Hd]; try discriminate Hd;
  injection Hd as Hd _;
  first [ exact (proj1 (tmp_ne_bin env _) Hd) | exact (proj2 (tmp_ne_bin env _) Hd) ].

Ltac quiet env :=
  repeat (constructor; [split; [not_stub env | intros []]|]); try constructor.

Ltac run :=
  cbv beta iota delta [acquire bind emit throw ret mkdirSync chmodSync
                         writeFileSync grow fs out fst snd negb].

Ltac after_extract env :=
  unfold extract_result;
  match goal with
  | |- context [match ?t ?b with inl _ => _ | inr _ => _ end] =>
      destruct (t b) as [?e|?entries]
  end; run;
  [ leaf; split; [quiet env|]; simpl; intuition discriminate |];
  destruct (String.eqb_spec (platform env) "win32") as [Hw|Hw]; run;
  [ leaf; split; [quiet env|]; simpl; split; [auto 10 | congruence] |];
  destruct (fs_fault env (OpChmod (binPath env))) as [?e|]; run;
  [ leaf; split; [quiet env|]; simpl; intuition discriminate |];
  match goal with
  | |- context [match ?m !! ?k with Some _ => _ | None => _ end] =>
      destruct (m !! k) eqn:?E
  end; run;
  [ leaf; split; [quiet env|]; simpl; split; [auto 10|];
    intros _; eexists; apply lookup_insert_eq
  | leaf; split; [quiet env|]; simpl; intuition discriminate ].

Lemma acquire_post (env : Env) (fuel : nat) (target url : string)
    (w : World) (r : Res unit) (w' : World) :
  acquire env fuel target (platform env) url w = (r, w') ->
  exists tr,
    out w' = (out w ++ snd (fetch env fuel url) ++ tr)%list /\
    Forall (fun ev => ~ is_stub_write env ev /\ ~ is_request ev) tr /\
    match r with
    | Ret _ =>
        In (installed_log env) tr /\
        (platform env <> "win32" ->
         exists c, fs w' !! binPath env = Some (mkFile c 493))
    | Throw e => ~ In (installed_log env) tr
    | OutOfFuel => tr = [] /\ fst (fetch env fuel url) = OutOfFuel
    | Exit c =>
        c = 1 /\ tr = [] /\ fst (fetch env fuel url) = Exit 1 /\ fs w' = fs w
    end.
Proof.
  unfold acquire, bind at 1. rewrite download_frame.
  pose proof (fetch_requests env fuel url) as [_ Hex].
  destruct (fetch env fuel url) as [rd reqs]. cbn [fst snd] in *.
  unfold grow.
  destruct rd as [data|e| |].
  2:{ intros [= <- <-]. exists []. rewrite app_nil_r. simpl. auto. }
  2:{ destruct (Hex _ eq_refl) as [-> _].
      intros [= <- <-]. exists []. rewrite app_nil_r. simpl. auto 10. }
  2:{ intros [= <- <-]. exists []. rewrite app_nil_r. simpl. auto. }
  fold (binPath env). run.
  destruct (fs_fault env (OpMkdir (binDir env))) as [e1|] eqn:Emk; run.
  { leaf. split; [quiet env|]. simpl. intuition discriminate. }
  destruct (Js.includes target "windows").
  - destruct (fs_fault env (OpWrite (tmpFile env ".zip"))) as [e2|] eqn:Ewr.
    { unfold extractZip. run. rewrite Ewr.
      destruct (fs_partial env _);
        leaf; (split; [quiet env|]); simpl; intuition discriminate. }
    rewrite (extractZip_run _ _ _ _ Ewr). after_extract env.
  - destruct (fs_fault env (OpWrite (tmpFile env ".tar.gz"))) as [e2|] eqn:Ewr.
    { unfold extractTarGz. run. rewrite Ewr.
      destruct (fs_partial env _);
        leaf; (split; [quiet env|]); simpl; intuition discriminate. }
    rewrite (extractTarGz_run _ _ _ _ Ewr). after_extract env.
Qed.

(** *** [install] as a whole *)

Import ResolverClaims.

Lemma install_supported (env : Env) (fuel : nat) (w : World) (t : string) :
  In (platform env, arch env, t) supported ->
  install env fuel w
  = if bool_decide (is_Some (fs w !! binPath env))
    then (Ret tt, grow w [already_installed_log env])
    else try_catch (acquire env fuel t (platform env) (getDownloadUrl env t))
           (fallback env (platform env)) (grow w (announce env t)).
Proof.
  intros Hin. unfold install, bind at 1.
  rewrite (getPlatformTarget_supported env w t Hin). cbn [fst snd].
  fold (binPath env).
  unfold bind at 1, existsSync.
  destruct (bool_decide _); [reflexivity|].
  unfold bind, emit, grow, announce. cbn [fs out]. rewrite <- app_assoc. reflexivity.
Qed.

Lemma requests_plain (env : Env) (reqs : list Event) :
  Forall is_traffic reqs ->
  ~ In (installed_log env) reqs /\ ~ Exists (is_stub_write env) reqs.
Proof.
  induction 1 as [|ev reqs Hev _ [IH1 IH2]]; split.
  - simpl. tauto.
  - intros H. inversion H.
  - simpl. intros [->|H]; [exact Hev | tauto].
  - intros H. inversion H as [? ? [d ->]|]; subst; [exact Hev | tauto].
Qed.

Lemma announce_plain (env : Env) (t : string) :
  ~ In (installed_log env) (announce env t) /\
  ~ Exists (is_stub_write env) (announce env t).
Proof.
  split.
  - simpl. intros [H|[H|[]]]; discriminate H.
  - intros H. unfold announce in H. rewrite !Exists_cons in H.
    destruct H as [[d H]|[[d H]|H]]; try discriminate H. inversion H.
Qed.




Lemma writable_no_fault (env : Env) (e : string) :
  stub_writable env -> stub_fault env e -> False.
Proof.
  unfold stub_writable, stub_fault.
  intros (H1 & H2 & H3) [H|[_ [H|(_ & Hw & H)]]]; try congruence.
  rewrite (H3 Hw) in H. discriminate.
Qed.

Lemma fallback_writable (env : Env) (e : string) (w : World) :
  stub_writable env ->
  exists w' m,
    fallback env (platform env) e w = (Ret tt, w') /\
    fs w' !! binPath env = Some (mkFile (stub env) m) /\
    (platform env <> "win32" -> m = 493) /\
    out w' = (out w ++ warnings e ++ FsMkdir (binDir env)
                :: FsWrite (binPath env) (stub env)
                :: (if String.eqb (platform env) "win32" then []
                    else [FsChmod (binPath env) 493]))%list.
Proof.
  intros Hw. destruct (fallback env (platform env) e w) as [r w'] eqn:E.
  apply fallback_post in E as (tr & Hout & Hr).
  destruct r as [[]|e'| |]; try contradiction.
  - destruct Hr as (_ & -> & m & Hm & Hmode). exists w', m. auto.
  - destruct Hr as [Hf _]. destruct (writable_no_fault env e' Hw Hf).
Qed.

Lemma acquire_fails (env : Env) (fuel : nat) (t : string) (w : World) :
  (exists e, fst (fetch env fuel (getDownloadUrl env t)) = Throw e) \/
  (exists data e, fst (fetch env fuel (getDownloadUrl env t)) = Ret data /\
                  archive_tool env t data = inl e) ->
  exists e' wa,
    acquire env fuel t (platform env) (getDownloadUrl env t) w = (Throw e', wa).
Proof.
  unfold acquire, bind at 1. rewrite download_frame.
  destruct (fetch env fuel (getDownloadUrl env t)) as [rd reqs]. cbn [fst snd].
  intros [[e ->]|(data & e & -> & Htool)]; [eauto|].
  unfold archive_tool in Htool. run.
  destruct (fs_fault env (OpMkdir (binDir env))); run; [eauto|].
  destruct (Js.includes t "windows").
  - destruct (fs_fault env (OpWrite (tmpFile env ".zip"))) as [e2|] eqn:Ewr.
    { unfold extractZip. run. rewrite Ewr. destruct (fs_partial env _); eauto. }
    rewrite (extractZip_run _ _ _ _ Ewr). unfold extract_result.
    rewrite Htool. eauto.
  - destruct (fs_fault env (OpWrite (tmpFile env ".tar.gz"))) as [e2|] eqn:Ewr.
    { unfold extractTarGz. run. rewrite Ewr. destruct (fs_partial env _); eauto. }
    rewrite (extractTarGz_run _ _ _ _ Ewr). unfold extract_result.
    rewrite Htool. eauto.
Qed.


Lemma install_short_circuit (env : Env) (files : gmap string File) (fuel : nat)
    (tr : list Event) :
  is_supported env ->
  is_Some (files !! binPath env) ->
  install env fuel (mkWorld files tr)
  = (Ret tt, mkWorld files (tr ++ [already_installed_log env])).
Proof.
  intros [t Ht] Hsome. rewrite (install_supported env fuel _ t Ht).
  cbn [fs]. rewrite bool_decide_eq_true_2 by exact Hsome. reflexivity.
Qed.

(** *** The successful run *)

Lemma string_app_inv_head (a b c : string) : a +:+ b = a +:+ c -> b = c.
Proof.
  induction a as [|x a IH]; simpl; [auto|].
  intros [= H]. auto.
Qed.

Lemma path_join_inj (env : Env) (d a b : string) :
  path_join env d a = path_join env d b -> a = b.
Proof.
  unfold path_join. intros H.
  apply string_app_inv_head in H. apply string_app_inv_head in H. exact H.
Qed.

Lemma unpack_snoc (env : Env) (dest : string) (l : list Entry) (x : Entry)
    (files : gmap string File) :
  unpack env dest (l ++ [x]) files
  = <[path_join env dest (fst x) := snd x]> (unpack env dest l files).
Proof. unfold unpack. rewrite foldl_app. reflexivity. Qed.

Lemma unpack_lookup (env : Env) (dest name : string) (entries : list Entry) :
  In name (map fst entries) ->
  exists f, In (name, f) entries /\
            forall files : gmap string File,
              unpack env dest entries files !! path_join env dest name = Some f.
Proof.
  induction entries as [|[n f] l IH] using rev_ind; [intros []|].
  rewrite map_app, in_app_iff. cbn [map fst snd In].
  destruct (String.eqb_spec n name) as [->|Hne].
  - intros _. exists f. split; [apply in_app_iff; right; left; reflexivity|].
    intros files. rewrite unpack_snoc. apply lookup_insert_eq.
  - intros [Hin|[Heq|[]]]; [|contradiction].
    destruct (IH Hin) as (g & Hg & Hl). exists g.
    split; [apply in_app_iff; left; exact Hg|].
    intros files. rewrite unpack_snoc, lookup_insert_ne; [apply Hl|].
    intros E. apply path_join_inj in E. contradiction.
Qed.

Lemma supported_windows (p a t : string) :
  In (p, a, t) supported -> Js.includes t "windows" = String.eqb p "win32".
Proof.
  intros H. unfold supported in H. simpl in H.
  repeat destruct H as [H|H]; try contradiction;
    injection H as <- <- <-; reflexivity.
Qed.

Lemma binPath_posix (env : Env) :
  platform env <> "win32" -> binPath env = path_join env (binDir env) BINARY_NAME.
Proof.
  intros H. unfold binPath, binPath_of.
  destruct (String.eqb_spec (platform env) "win32"); [contradiction|reflexivity].
Qed.

Lemma install_posix_success (env : Env) (files : gmap string File) (fuel : nat)
    (t data : string) (reqs : list Event) (entries : list Entry) :
  In (platform env, arch env, t) supported ->
  platform env <> "win32" ->
  files !! binPath env = None ->
  fetch env fuel (getDownloadUrl env t) = (Ret data, reqs) ->
  untar env data = inr entries ->
  In BINARY_NAME (map fst entries) ->
  fs_fault env (OpMkdir (binDir env)) = None ->
  fs_fault env (OpWrite (tmpFile env ".tar.gz")) = None ->
  fs_fault env (OpChmod (binPath env)) = None ->
  exists f w',
    In (BINARY_NAME, f) entries /\
    install env fuel (mkWorld files []) = (Ret tt, w') /\
    fs w' !! binPath env = Some (mkFile (content f) 493) /\
    out w' = (announce env t ++ reqs ++ success_trace env data)%list.
Proof.
  intros Ht Hp Hnone Hfetch Htar Hbin Hmk Hwr Hch.
  rewrite (install_supported env fuel _ t Ht). cbn [fs]. rewrite Hnone.
  rewrite bool_decide_eq_false_2 by (intros [x Hx]; discriminate Hx).
  unfold try_catch, acquire, bind at 1. rewrite download_frame, Hfetch.
  cbn [fst snd]. fold (binPath env). unfold grow. run.
  rewrite Hmk. run.
  rewrite (supported_windows _ _ _ Ht).
  destruct (String.eqb_spec (platform env) "win32") as [|_]; [contradiction|].
  rewrite (extractTarGz_run _ _ _ _ Hwr). unfold extract_result. rewrite Htar.
  run. rewrite Hch. run.
  destruct (unpack_lookup env (binDir env) BINARY_NAME entries Hbin) as (f & Hf & Hl).
  rewrite <- (binPath_posix env Hp) in Hl.
  assert (Hx : extract_files env (untar env) ".tar.gz" data (binDir env) files
               !! binPath env = Some f).
  { unfold extract_files. rewrite Htar.
    destruct (fs_fault env (OpUnlink _));
      [|rewrite lookup_delete_ne by exact (proj1 (tmp_ne_bin env _))]; apply Hl. }
  rewrite Hx. run.
  exists f. eexists. split; [exact Hf|]. split; [reflexivity|].
  cbn [fs out]. split; [apply lookup_insert_eq|].
  unfold success_trace, grow. cbn [out app]. rewrite <- !app_assoc. reflexivity.
Qed.

(** *** Redirect chains and failed downloads *)

Lemma handler_terminal (env : Env) (fuel : nat) (url : string) (n : nat)
    (r : Response) (w : World) :
  terminal r -> handler env fuel url n r w = (settle url r, w).
Proof.
  intros Ht. unfold terminal in Ht.
  assert (Hc : Z.leb 300 (statusCode r) && Z.ltb (statusCode r) 400
               && Js.truthy (location r) = false).
  { destruct (Z.leb_spec 300 (statusCode r)), (Z.ltb_spec (statusCode r) 400),
      (Js.truthy (location r)); simpl; try reflexivity.
    exfalso. apply Ht. split; [lia|reflexivity]. }
  unfold settle.
  destruct fuel; simpl; rewrite Hc;
    destruct (Z.eqb (statusCode r) 200); simpl; try reflexivity;
    destruct (body r); reflexivity.
Qed.

Lemma handler_redirect (env : Env) (fuel : nat) (url : string) (n : nat)
    (code : Z) (loc : string) (b : string + string) (w : World) :
  300 <= code < 400 -> loc <> EmptyString ->
  handler env (S fuel) url n (mkResponse code (Some loc) b) w
  = match http_get env n (Js.startsWith loc "https") loc with
    | NetThrow e => (Exit 1, grow w [Uncaught e])
    | NetError e => (Throw e, grow w [HttpGet (Js.startsWith loc "https") loc])
    | NetResponse r =>
        handler env fuel url (S n) r (grow w [HttpGet (Js.startsWith loc "https") loc])
    end.
Proof.
  intros Hc Hl. cbn [handler statusCode location default].
  assert (Ht : Js.truthy (Some loc) = true).
  { simpl. destruct (String.eqb_spec loc EmptyString); [contradiction|reflexivity]. }
  rewrite Ht.
  destruct (Z.leb_spec 300 code); [|lia].
  destruct (Z.ltb_spec code 400); [|lia].
  cbn [andb]. unfold bind, emit.
  destruct (http_get env n _ _); reflexivity.
Qed.

Lemma follows_handler (env : Env) (url : string) (final : Response) :
  terminal final ->
  forall hops fuel n code loc b w,
    300 <= code < 400 -> loc <> EmptyString ->
    follows env n (Js.startsWith loc "https") loc hops final ->
    (length hops < fuel)%nat ->
    handler env fuel url n (mkResponse code (Some loc) b) w
    = (settle url final,
       grow w (HttpGet (Js.startsWith loc "https") loc
                 :: map (fun h => HttpGet (Js.startsWith (snd h) "https") (snd h)) hops)).
Proof.
  intros Hterm. induction hops as [|[c l] hops IH];
    intros fuel n code loc b w Hc Hl Hf Hlen;
    (destruct fuel as [|fuel]; [simpl in Hlen; lia|]);
    rewrite (handler_redirect _ _ _ _ _ _ _ _ Hc Hl); simpl in Hf.
  - rewrite Hf. rewrite handler_terminal by exact Hterm. reflexivity.
  - destruct Hf as ([b' Hget] & Hc' & Hl' & Hrest). rewrite Hget.
    rewrite (IH fuel (S n) c l b' _ Hc' Hl' Hrest) by (simpl in Hlen; lia).
    rewrite grow_grow. reflexivity.
Qed.

Lemma fetch_follows (env : Env) (fuel : nat) (url : string)
    (hops : list (Z * string)) (final : Response) :
  follows env 0 true url hops final ->
  terminal final ->
  (length hops <= fuel)%nat ->
  fetch env fuel url = (settle url final, requests_of url hops).
Proof.
  intros Hf Hterm Hlen. unfold fetch, download, bind, emit, requests_of.
  destruct hops as [|[c l] hops]; simpl in Hf.
  - rewrite Hf. rewrite handler_terminal by exact Hterm. reflexivity.
  - destruct Hf as ([b Hget] & Hc & Hl & Hrest). rewrite Hget.
    rewrite (follows_handler env url final Hterm hops fuel 1%nat c l b _ Hc Hl Hrest)
      by (simpl in Hlen; lia).
    reflexivity.
Qed.

Lemma acquire_download_error (env : Env) (fuel : nat) (t p url e : string)
    (reqs : list Event) (w : World) :
  fetch env fuel url = (Throw e, reqs) ->
  acquire env fuel t p url w = (Throw e, grow w reqs).
Proof.
  intros Hf. unfold acquire, bind at 1. rewrite download_frame, Hf. reflexivity.
Qed.

Lemma install_download_error (env : Env) (files : gmap string File) (fuel : nat)
    (t e : string) (reqs : list Event) :
  In (platform env, arch env, t) supported ->
  files !! binPath env = None ->
  stub_writable env ->
  fetch env fuel (getDownloadUrl env t) = (Throw e, reqs) ->
  exists w' m,
    install env fuel (mkWorld files []) = (Ret tt, w') /\
    fs w' !! binPath env = Some (mkFile (stub env) m) /\
    (platform env <> "win32" -> m = 493) /\
    out w' = (announce env t ++ reqs ++ warnings e
                ++ FsMkdir (binDir env) :: FsWrite (binPath env) (stub env)
                :: (if String.eqb (platform env) "win32" then []
                    else [FsChmod (binPath env) 493]))%list.
Proof.
  intros Ht Hnone Hw Hf.
  rewrite (install_supported env fuel _ t Ht). cbn [fs]. rewrite Hnone.
  rewrite bool_decide_eq_false_2 by (intros [x Hx]; discriminate Hx).
  unfold try_catch. rewrite (acquire_download_error _ _ _ _ _ _ _ _ Hf).
  destruct (fallback_writable env e (grow (grow (mkWorld files []) (announce env t)) reqs) Hw)
    as (w' & m & Ef & Hm & Hmode & Hout).
  exists w', m. rewrite Ef.
  split; [reflexivity|]. split; [exact Hm|]. split; [exact Hmode|].
  rewrite Hout. unfold grow. cbn [out app]. rewrite <- !app_assoc. reflexivity.
Qed.

Lemma same_host_binPath (env env2 : Env) :
  same_host env env2 -> binPath env2 = binPath env /\ (is_supported env -> is_supported env2).
Proof.
  intros (Hp & Ha & Hd).
  unfold binPath, binPath_of, binDir, path_join, sep, is_supported.
  rewrite Hp, Ha, Hd. auto.
Qed.

(** *** A redirect the client refuses *)





(** *** A fallback that fails *)




End InstallerProofs.

(** ** The claims about the installer *)

Module InstallerClaims.

Import Installer Spec ResolverClaims InstallerProofs.












(** C6.  With a file at the destination, [install] logs the path and
    returns: no request is issued and the files are left as they were;
    the process status is 0.  So a second run, on a host with the same
    destination and whatever network, after any first run that left a file
    there, reports that same path and does nothing else. *)
Theorem install_idempotent (env env2 : Env) (files : gmap string File)
    (fuel fuel2 : nat) (r : Res unit) (w1 : World) :
  is_supported env ->
  (is_Some (files !! binPath env) ->
     install env fuel (mkWorld files [])
     = (Ret tt, mkWorld files [already_installed_log env]) /\
     main env fuel (mkWorld files [])
     = (Some 0, mkWorld files [already_installed_log env]) /\
     ~ Exists is_request (out (snd (install env fuel (mkWorld files []))))) /\
  (same_host env env2 ->
   install env fuel (mkWorld files []) = (r, w1) ->
   is_Some (fs w1 !! binPath env) ->
     install env2 fuel2 (mkWorld (fs w1) [])
     = (Ret tt, mkWorld (fs w1) [already_installed_log env])).
Proof.
  intros Hsup. split.
  - intros Hsome.
    pose proof (install_short_circuit env files fuel [] Hsup Hsome) as E.
    split; [exact E|]. split; [unfold main; rewrite E; reflexivity|].
    rewrite E. cbn [snd out].
    intros H. inversion H as [? ? Hr|? ? Hr]; [exact Hr | inversion Hr].
  - intros Hsame _ Hsome.
    destruct (same_host_binPath env env2 Hsame) as [Hb Hs].
    rewrite <- Hb in Hsome.
    rewrite (install_short_circuit env2 (fs w1) fuel2 [] (Hs Hsup) Hsome).
    unfold already_installed_log. rewrite Hb. reflexivity.
Qed.

Lemma install_idempotent_witness :
  install Sample.linux_offline 7 (mkWorld Sample.installed_files [])
  = (Ret tt, mkWorld Sample.installed_files
               [ConsoleLog "ai-statusline binary already installed at /pkg/bin/ai-statusline"]) /\
  install Sample.direct 0
    (mkWorld (fs (snd (install Sample.linux_offline 2 Sample.boot))) [])
  = (Ret tt, mkWorld (fs (snd (install Sample.linux_offline 2 Sample.boot)))
               [ConsoleLog "ai-statusline binary already installed at /pkg/bin/ai-statusline"]).
Proof.
  assert (Hs : is_supported Sample.linux_offline).
  { exists "x86_64-unknown-linux-gnu". simpl. tauto. }
  split.
  - apply (proj1 (install_idempotent Sample.linux_offline Sample.direct
                    Sample.installed_files 7 0 (Ret tt) Sample.boot Hs)).
    vm_compute. eauto.
  - apply (proj2 (install_idempotent Sample.linux_offline Sample.direct
                    ∅ 2 0 (Ret tt) (snd (install Sample.linux_offline 2 Sample.boot)) Hs)).
    + repeat split.
    + vm_compute. reflexivity.
    + vm_compute. eauto.
Defined.

(** C7.  On a supported platform other than win32, when the download ends
    (after any followed redirects) in a 200 response whose body [tar]
    unpacks to entries holding the binary, and the system calls used go
    through, the process ends with status 0, the destination holds the
    unpacked binary with mode 0755 set after the extraction, and no write
    to the destination was issued by the script. *)
Theorem install_success_posix (env : Env) (files : gmap string File) (fuel : nat)
    (t data : string) (hops : list (Z * string)) (final : Response)
    (entries : list Entry) :
  In (platform env, arch env, t) supported ->
  platform env <> "win32" ->
  files !! binPath env = None ->
  follows env 0 true (getDownloadUrl env t) hops final ->
  (length hops <= fuel)%nat ->
  statusCode final = 200 ->
  body final = inl data ->
  untar env data = inr entries ->
  In BINARY_NAME (map fst entries) ->
  fs_fault env (OpMkdir (binDir env)) = None ->
  fs_fault env (OpWrite (tmpFile env ".tar.gz")) = None ->
  fs_fault env (OpChmod (binPath env)) = None ->
  exists f w',
    In (BINARY_NAME, f) entries /\
    main env fuel (mkWorld files []) = (Some 0, w') /\
    fs w' !! binPath env = Some (mkFile (content f) 493) /\
    out w' = (announce env t ++ requests_of (getDownloadUrl env t) hops
                ++ success_trace env data)%list /\
    ~ Exists (is_stub_write env) (out w').
Proof.
  intros Ht Hp Hnone Hf Hlen Hcode Hbody Htar Hbin Hmk Hwr Hch.
  assert (Hterm : terminal final).
  { unfold terminal. rewrite Hcode. lia. }
  pose proof (fetch_follows env fuel _ hops final Hf Hterm Hlen) as Hfetch.
  unfold settle in Hfetch. rewrite Hcode, Hbody in Hfetch. cbn [Z.eqb Pos.eqb] in Hfetch.
  destruct (install_posix_success env files fuel t data _ entries
              Ht Hp Hnone Hfetch Htar Hbin Hmk Hwr Hch)
    as (f & w' & Hin & Hrun & Hfs & Hout).
  exists f, w'. split; [exact Hin|].
  split; [unfold main; rewrite Hrun; reflexivity|].
  split; [exact Hfs|]. split; [exact Hout|].
  rewrite Hout, !Exists_app. intros [H|[H|H]].
  - exact (proj2 (announce_plain env t) H).
  - pose proof (fetch_requests env fuel (getDownloadUrl env t)) as [Hreq _].
    rewrite Hfetch in Hreq. exact (proj2 (requests_plain env _ Hreq) H).
  - unfold success_trace in H. rewrite !Exists_cons, Exists_nil in H.
    repeat destruct H as [[d H]|H]; try discriminate H; try contradiction.
    injection H as H _. exact (proj1 (tmp_ne_bin env _) H).
Qed.

Lemma install_success_posix_witness :
  exists w',
    main Sample.direct 0 Sample.boot = (Some 0, w') /\
    fs w' !! "/pkg/bin/ai-statusline" = Some (mkFile "ELF:ARCHIVE" 493) /\
    ~ Exists (is_stub_write Sample.direct) (out w').
Proof.
  destruct (install_success_posix Sample.direct ∅ 0 "x86_64-unknown-linux-gnu"
              "ARCHIVE" [] (mkResponse 200 None (inl "ARCHIVE"))
              [("ai-statusline", mkFile "ELF:ARCHIVE" 420)])
    as (f & w' & Hf & Hmain & Hfs & _ & Hno);
    try reflexivity; try (simpl; tauto); try discriminate.
  exists w'. split; [exact Hmain|]. split; [|exact Hno].
  destruct Hf as [Hf|[]]. injection Hf as <-. exact Hfs.
Defined.

(** C8.  For both archive kinds, once the temporary archive is written
    (in the system temp directory), the tool is run and then the removal
    of the archive is attempted, whatever the tool's outcome; the outcome of
    the extraction is the tool's alone, so a failing removal is ignored;
    when the removal goes through the archive is gone. *)
Theorem extract_cleanup (env : Env) (buffer destDir : string) (w : World) :
  (fs_fault env (OpWrite (tmpFile env ".tar.gz")) = None ->
   let tmp := tmpFile env ".tar.gz" in
   let run := extractTarGz env buffer destDir w in
   tmp = tmpdir env +:+ sep env +:+ "ai-statusline-" +:+ Js.num (Z.of_N (now env))
           +:+ ".tar.gz" /\
   out (snd run) = (out w ++ [FsWrite tmp buffer; Exec (tar_command tmp destDir);
                               FsUnlink tmp])%list /\
   fst run = extract_result (untar env) buffer /\
   (fs_fault env (OpUnlink tmp) = None -> fs (snd run) !! tmp = None)) /\
  (fs_fault env (OpWrite (tmpFile env ".zip")) = None ->
   let tmp := tmpFile env ".zip" in
   let run := extractZip env buffer destDir w in
   tmp = tmpdir env +:+ sep env +:+ "ai-statusline-" +:+ Js.num (Z.of_N (now env))
           +:+ ".zip" /\
   out (snd run) = (out w ++ [FsWrite tmp buffer; Exec (unzip_command tmp destDir);
                               FsUnlink tmp])%list /\
   fst run = extract_result (unzip env) buffer /\
   (fs_fault env (OpUnlink tmp) = None -> fs (snd run) !! tmp = None)).
Proof.
  split; intros Hwr; cbv zeta.
  - rewrite (extractTarGz_run _ _ _ _ Hwr). cbn [fst snd fs out].
    split; [reflexivity|]. split; [reflexivity|]. split; [reflexivity|].
    intros Hun. unfold extract_files. rewrite Hun. apply lookup_delete_eq.
  - rewrite (extractZip_run _ _ _ _ Hwr). cbn [fst snd fs out].
    split; [reflexivity|]. split; [reflexivity|]. split; [reflexivity|].
    intros Hun. unfold extract_files. rewrite Hun. apply lookup_delete_eq.
Qed.

Lemma extract_cleanup_witness :
  (fst (extractTarGz Sample.linux_offline "junk" "/pkg/bin" Sample.boot)
   = Throw "Command failed: tar" /\
   fs (snd (extractTarGz Sample.linux_offline "junk" "/pkg/bin" Sample.boot))
     !! "/tmp/ai-statusline-1700000000000.tar.gz" = None) /\
  (fst (extractTarGz Sample.sticky_tmp "ARCHIVE" "/pkg/bin" Sample.boot) = Ret tt /\
   out (snd (extractTarGz Sample.sticky_tmp "ARCHIVE" "/pkg/bin" Sample.boot))
   = [ FsWrite "/tmp/ai-statusline-1700000000000.tar.gz" "ARCHIVE";
       Exec (tar_command "/tmp/ai-statusline-1700000000000.tar.gz" "/pkg/bin");
       FsUnlink "/tmp/ai-statusline-1700000000000.tar.gz" ]) /\
  fs (snd (extractZip Sample.win_empty_zip "ZIP" "bin" Sample.boot))
    !! tmpFile Sample.win_empty_zip ".zip" = None.
Proof.
  split; [|split].
  - destruct (proj1 (extract_cleanup Sample.linux_offline "junk" "/pkg/bin" Sample.boot)
                eq_refl) as (_ & _ & Hr & Hgone).
    split; [exact Hr | exact (Hgone eq_refl)].
  - destruct (proj1 (extract_cleanup Sample.sticky_tmp "ARCHIVE" "/pkg/bin" Sample.boot)
                eq_refl) as (_ & Hout & Hr & _).
    split; [exact Hr | exact Hout].
  - destruct (proj2 (extract_cleanup Sample.win_empty_zip "ZIP" "bin" Sample.boot)
                eq_refl) as (_ & _ & _ & Hgone).
    exact (Hgone eq_refl).
Defined.

(** C10.  A 3xx response without Location header, first or after followed
    redirects, is not followed: the download fails with the error naming
    that status and the URL [download] was called with, no further request
    is issued, and [install] writes the stub and ends with status 0. *)
Theorem redirect_without_location (env : Env) (fuel : nat) (url : string)
    (hops : list (Z * string)) (r : Response) :
  follows env 0 true url hops r ->
  300 <= statusCode r < 400 ->
  location r = None ->
  (length hops <= fuel)%nat ->
  let message := "Download failed with status " +:+ Js.num (statusCode r)
                   +:+ ": " +:+ url in
  fetch env fuel url = (Throw message, requests_of url hops) /\
  (forall files t,
     url = getDownloadUrl env t ->
     In (platform env, arch env, t) supported ->
     files !! binPath env = None ->
     stub_writable env ->
     exists w' m,
       main env fuel (mkWorld files []) = (Some 0, w') /\
       fs w' !! binPath env = Some (mkFile (stub env) m) /\
       out w' = (announce env t ++ requests_of url hops ++ warnings message
                   ++ FsMkdir (binDir env) :: FsWrite (binPath env) (stub env)
                   :: (if String.eqb (platform env) "win32" then []
                       else [FsChmod (binPath env) 493]))%list).
Proof.
  intros Hf Hcode Hloc Hlen message.
  assert (Hterm : terminal r).
  { unfold terminal. rewrite Hloc. simpl. intros [_ H]. discriminate H. }
  pose proof (fetch_follows env fuel url hops r Hf Hterm Hlen) as Hfetch.
  assert (Hs : settle url r = Throw message).
  { unfold settle. destruct (Z.eqb_spec (statusCode r) 200); [lia|reflexivity]. }
  rewrite Hs in Hfetch. split; [exact Hfetch|].
  intros files t -> Ht Hnone Hw.
  destruct (install_download_error env files fuel t message _ Ht Hnone Hw Hfetch)
    as (w' & m & Hrun & Hfs & _ & Hout).
  exists w', m. split; [unfold main; rewrite Hrun; reflexivity|]. auto.
Qed.

Lemma redirect_without_location_witness :
  fetch Sample.no_location 4 (getDownloadUrl Sample.no_location "aarch64-unknown-linux-gnu")
  = (Throw ("Download failed with status 301: "
              +:+ getDownloadUrl Sample.no_location "aarch64-unknown-linux-gnu"),
     [HttpGet true (getDownloadUrl Sample.no_location "aarch64-unknown-linux-gnu")]) /\
  exists w' m,
    main Sample.no_location 4 Sample.boot = (Some 0, w') /\
    fs w' !! binPath Sample.no_location = Some (mkFile (stub Sample.no_location) m).
Proof.
  assert (Hlen : (length (@nil (Z * string)) <= 4)%nat) by (simpl; lia).
  destruct (redirect_without_location Sample.no_location 4
              (getDownloadUrl Sample.no_location "aarch64-unknown-linux-gnu")
              [] (mkResponse 301 None (inl EmptyString)) eq_refl
              ltac:(simpl; lia) eq_refl Hlen)
    as [Hfetch Hinst].
  split; [exact Hfetch|].
  destruct (Hinst ∅ "aarch64-unknown-linux-gnu" eq_refl) as (w' & m & Hmain & Hfs & _).
  - simpl. tauto.
  - reflexivity.
  - repeat split; intros; reflexivity.
  - exists w', m. auto.
Defined.

End InstallerClaims.

(** ** The claim about the launcher *)

Module LauncherClaims.

Import Launcher.

(** C9.  The launcher starts one child, the binary next to it, with the
    arguments after the script path unchanged and the three standard streams
    inherited.  Without launch error it prints nothing and exits with the
    child's status, or with 1 when there is none.  On a launch error it
    exits with 1, after printing the fixed not-found line when the error
    code is ENOENT and the error's own message otherwise. *)
Theorem cli_forwards (name : string) (h : Host) (node script : string)
    (rest : list string) :
  argv h = node :: script :: rest ->
  let ext := if String.eqb (Launcher.platform h) "win32" then ".exe" else EmptyString in
  let bin := dirname h +:+ Launcher.sep h +:+ name +:+ "-bin" +:+ ext in
  let options := mkSpawnOptions "inherit" false in
  let result := spawnSync h bin rest options in
  let r := cli name h in
  child r = (bin, rest, options) /\
  (error result = None ->
   stderr r = [] /\
   (forall s, status result = Some s -> exit_status r = s) /\
   (status result = None -> exit_status r = 1)) /\
  (forall e, error result = Some e -> Launcher.code e = "ENOENT" ->
   stderr r = [name +:+ " binary not found. Try reinstalling: npm install -g " +:+ name] /\
   exit_status r = 1) /\
  (forall e, error result = Some e -> Launcher.code e <> "ENOENT" ->
   stderr r = [Launcher.message e] /\ exit_status r = 1).
Proof.
  intros Hargv. cbv zeta. unfold cli, slice2. rewrite Hargv.
  change (skipn 2 (node :: script :: rest)) with rest.
  destruct (error (spawnSync h _ rest _)) as [e|] eqn:Ee.
  - split; [reflexivity|]. split; [discriminate|]. split.
    + intros e' [= <-] Hc. cbn [stderr exit_status]. rewrite Hc. auto.
    + intros e' [= <-] Hc. cbn [stderr exit_status].
      destruct (String.eqb_spec (Launcher.code e) "ENOENT"); [contradiction|auto].
  - split; [reflexivity|]. split; [|split; discriminate].
    intros _. cbn [stderr exit_status]. split; [reflexivity|].
    split; [intros s ->; reflexivity | intros ->; reflexivity].
Qed.

Lemma cli_forwards_witness :
  (stderr (claudeline Sample.enoent)
   = ["claudeline binary not found. Try reinstalling: npm install -g claudeline"] /\
   exit_status (claudeline Sample.enoent) = 1) /\
  (stderr (claude_status Sample.eacces) = ["spawnSync /pkg/bin/claudeline-bin EACCES"] /\
   exit_status (claude_status Sample.eacces) = 1) /\
  (child (claudeline Sample.killed)
   = ("C:" +:+ Js.backslash +:+ "claudeline-bin.exe", ["a"; "b"],
      mkSpawnOptions "inherit" false) /\
   exit_status (claudeline Sample.killed) = 1) /\
  exit_status (claude_status (Sample.exits 3)) = 3.
Proof.
  split; [|split; [|split]].
  - destruct (cli_forwards "claudeline" Sample.enoent "node" "/pkg/bin/cli.js"
                ["--version"] eq_refl) as (_ & _ & H & _).
    exact (H _ eq_refl eq_refl).
  - destruct (cli_forwards "claude-status" Sample.eacces "node" "/pkg/bin/cli.js"
                ["--version"] eq_refl) as (_ & _ & _ & H).
    apply (H _ eq_refl). discriminate.
  - destruct (cli_forwards "claudeline" Sample.killed "node" "cli.js"
                ["a"; "b"] eq_refl) as (Hc & H & _).
    split; [exact Hc|]. exact (proj2 (proj2 (H eq_refl)) eq_refl).
  - destruct (cli_forwards "claude-status" (Sample.exits 3) "node" "/pkg/bin/cli.js"
                [] eq_refl) as (_ & H & _).
    exact (proj1 (proj2 (H eq_refl)) 3 eq_refl).
Defined.

End LauncherClaims.

(** ** Four runs, written out *)

Module Runs.

Import Installer Spec.

(** One redirect to a plain-http mirror, then the archive. *)
Example run_redirected :
  main Sample.redirected 1 Sample.boot
  = (Some 0,
     mkWorld
       {[ "/pkg/bin/ai-statusline" := mkFile "ELF:ARCHIVE" 493 ]}
       [ ConsoleLog "Downloading ai-statusline v1.2.0 for aarch64-apple-darwin...";
         ConsoleLog "  URL: https://github.com/mstuart/ai-statusline/releases/download/v1.2.0/ai-statusline-v1.2.0-aarch64-apple-darwin.tar.gz";
         HttpGet true "https://github.com/mstuart/ai-statusline/releases/download/v1.2.0/ai-statusline-v1.2.0-aarch64-apple-darwin.tar.gz";
         HttpGet false "http://mirror.example/ai-statusline.tar.gz";
         LogDownloaded 7;
         FsMkdir "/pkg/bin";
         FsWrite "/tmp/ai-statusline-1700000000000.tar.gz" "ARCHIVE";
         Exec (tar_command "/tmp/ai-statusline-1700000000000.tar.gz" "/pkg/bin");
         FsUnlink "/tmp/ai-statusline-1700000000000.tar.gz";
         FsChmod "/pkg/bin/ai-statusline" 493;
         ConsoleLog "  Installed to /pkg/bin/ai-statusline" ]).
Proof. vm_compute. reflexivity. Qed.

(** No network: the stub is written and the status is still 0. *)
Example run_offline :
  main Sample.linux_offline 0 Sample.boot
  = (Some 0,
     mkWorld
       {[ "/pkg/bin/ai-statusline" := mkFile (stub_of "linux") 493 ]}
       (announce Sample.linux_offline "x86_64-unknown-linux-gnu"
          ++ [HttpGet true (getDownloadUrl Sample.linux_offline "x86_64-unknown-linux-gnu")]
          ++ warnings "getaddrinfo ENOTFOUND github.com"
          ++ [ FsMkdir "/pkg/bin";
               FsWrite "/pkg/bin/ai-statusline" (stub_of "linux");
               FsChmod "/pkg/bin/ai-statusline" 493 ])).
Proof. vm_compute. reflexivity. Qed.

(** The same, where nothing can be written: the failure reaches
    [install().catch] and the status is 1. *)
Example run_readonly :
  main Sample.readonly 0 Sample.boot
  = (Some 1,
     mkWorld ∅
       (announce Sample.readonly "x86_64-unknown-linux-gnu"
          ++ [HttpGet true (getDownloadUrl Sample.readonly "x86_64-unknown-linux-gnu")]
          ++ warnings "getaddrinfo ENOTFOUND github.com"
          ++ [ FsMkdir "/pkg/bin";
               FsWrite "/pkg/bin/ai-statusline" (stub_of "linux");
               ConsoleError "Installation failed: EACCES: permission denied" ])).
Proof. vm_compute. reflexivity. Qed.

(** A redirect to a relative reference: [http.get] throws in the
    response callback, and the process ends there, with status 1 and
    without a stub. *)
Example run_relative :
  main Sample.relative 1 Sample.boot
  = (Some 1,
     mkWorld ∅
       [ ConsoleLog "Downloading ai-statusline v1.2.0 for x86_64-unknown-linux-gnu...";
         ConsoleLog "  URL: https://github.com/mstuart/ai-statusline/releases/download/v1.2.0/ai-statusline-v1.2.0-x86_64-unknown-linux-gnu.tar.gz";
         HttpGet true "https://github.com/mstuart/ai-statusline/releases/download/v1.2.0/ai-statusline-v1.2.0-x86_64-unknown-linux-gnu.tar.gz";
         Uncaught "Invalid URL" ]).
Proof. vm_compute. reflexivity. Qed.

End Runs.

(** ** Further properties of the scripts

    First the lemmas: an invariant that is kept by every step of the
    installer, and facts about strings, redirect chains and archives. *)

Module ExtraProofs.

Import Installer Spec ResolverClaims InstallerProofs.

Section Keeps.

Variables (P : Event -> Prop) (Q : string -> Prop).

Lemma keeps_pure {A} (r : Res A) : keeps P Q (fun w => (r, w)).
Proof.
  intros w r' w' [= <- <-]. split; [|auto].
  exists []. rewrite app_nil_r. auto.
Qed.

Lemma keeps_emit (e : Event) : P e -> keeps P Q (emit e).
Proof.
  intros He w r w' [= <- <-]. split; [|auto].
  exists [e]. auto.
Qed.

Lemma keeps_seq {A B} (c : M A) (k : A -> M B) :
  keeps P Q c -> (forall a, keeps P Q (k a)) -> keeps P Q (bind c k).
Proof.
  intros Hc Hk w r w'. unfold bind.
  destruct (c w) as [ra wa] eqn:Ec. destruct (Hc _ _ _ Ec) as [(tr & Hout & Htr) Hfs].
  destruct ra as [a|e|n|].
  - intros Ek. destruct (Hk a _ _ _ Ek) as [(tr2 & Hout2 & Htr2) Hfs2]. split.
    + exists (tr ++ tr2)%list. rewrite Hout2, Hout, app_assoc.
      split; [reflexivity | apply Forall_app; auto].
    + intros p Hp. rewrite (Hfs2 p Hp). auto.
  - intros [= <- <-]. eauto.
  - intros [= <- <-]. eauto.
  - intros [= <- <-]. eauto.
Qed.

Lemma keeps_try_catch {A} (c : M A) (h : string -> M A) :
  keeps P Q c -> (forall e, keeps P Q (h e)) -> keeps P Q (try_catch c h).
Proof.
  intros Hc Hh w r w'. unfold try_catch.
  destruct (c w) as [ra wa] eqn:Ec. destruct (Hc _ _ _ Ec) as [(tr & Hout & Htr) Hfs].
  destruct ra as [a|e|n|]; try (intros [= <- <-]; eauto).
  intros Eh. destruct (Hh e _ _ _ Eh) as [(tr2 & Hout2 & Htr2) Hfs2]. split.
  - exists (tr ++ tr2)%list. rewrite Hout2, Hout, app_assoc.
    split; [reflexivity | apply Forall_app; auto].
  - intros p Hp. rewrite (Hfs2 p Hp). auto.
Qed.

Lemma keeps_try_finally {A} (c : M A) (f : M unit) :
  keeps P Q c -> keeps P Q f -> keeps P Q (try_finally c f).
Proof.
  intros Hc Hf w r w'. unfold try_finally.
  destruct (c w) as [ra wa] eqn:Ec. destruct (Hc _ _ _ Ec) as [(tr & Hout & Htr) Hfs].
  assert (Hafter : forall (k : unit -> M A), (forall u, keeps P Q (k u)) ->
            bind f k wa = (r, w') ->
            (exists tr, out w' = (out w ++ tr)%list /\ Forall P tr) /\
            (forall p, Q p -> fs w' !! p = fs w !! p)).
  { intros k Hk Ek.
    destruct (keeps_seq f k Hf Hk _ _ _ Ek) as [(tr2 & Hout2 & Htr2) Hfs2]. split.
    - exists (tr ++ tr2)%list. rewrite Hout2, Hout, app_assoc.
      split; [reflexivity | apply Forall_app; auto].
    - intros p Hp. rewrite (Hfs2 p Hp). auto. }
  destruct ra as [a|e|n|]; try (intros [= <- <-]; eauto).
  - apply Hafter. intros _. apply keeps_pure.
  - apply Hafter. intros _. apply keeps_pure.
Qed.

End Keeps.

Lemma unpack_other (env : Env) (dest : string) (entries : list Entry)
    (files : gmap string File) (p : string) :
  (forall name, p <> path_join env dest name) ->
  unpack env dest entries files !! p = files !! p.
Proof.
  intros Hp. induction entries as [|x l IH] using rev_ind; [reflexivity|].
  rewrite unpack_snoc, lookup_insert_ne; [exact IH|].
  intros E. exact (Hp (fst x) (eq_sym E)).
Qed.

Section Footprint.

Variable env : Env.

Lemma outside_bin (p : string) : outside env p -> p <> binPath env.
Proof. intros (_ & _ & H). apply H. Qed.

Lemma keeps_exists (path : string) : keeps (footprint env) (outside env) (existsSync path).
Proof.
  intros w r w' [= <- <-]. split; [|auto]. exists []. rewrite app_nil_r. auto.
Qed.

Lemma keeps_mkdir : keeps (footprint env) (outside env) (mkdirSync env (binDir env)).
Proof.
  unfold mkdirSync. apply keeps_seq; [apply keeps_emit; reflexivity|].
  intros _. destruct (fs_fault env _); apply keeps_pure.
Qed.

Lemma keeps_write (path data : string) :
  footprint env (FsWrite path data) -> (forall p, outside env p -> p <> path) ->
  keeps (footprint env) (outside env) (writeFileSync env path data).
Proof.
  intros HP HQ. unfold writeFileSync. apply keeps_seq; [apply keeps_emit; exact HP|].
  intros _ w r w'.
  destruct (fs_fault env _); [destruct (fs_partial env path)|];
    intros [= <- <-]; (split; [exists []; rewrite app_nil_r; auto|]); auto.
  all: intros p Hp; cbn [fs]; apply lookup_insert_ne; intros E;
    exact (HQ p Hp (eq_sym E)).
Qed.

Lemma keeps_chmod : keeps (footprint env) (outside env) (chmodSync env (binPath env) 493).
Proof.
  unfold chmodSync. apply keeps_seq; [apply keeps_emit; split; reflexivity|].
  intros _. destruct (fs_fault env _); [apply keeps_pure|].
  intros w r w'. destruct (fs w !! binPath env); intros [= <- <-]; split;
    try (exists []; rewrite app_nil_r; auto); auto.
  intros p Hp. cbn [fs]. apply lookup_insert_ne. intros E.
  exact (outside_bin p Hp (eq_sym E)).
Qed.

Lemma keeps_unlink (path : string) :
  footprint env (FsUnlink path) -> (forall p, outside env p -> p <> path) ->
  keeps (footprint env) (outside env) (unlinkSync env path).
Proof.
  intros HP HQ. unfold unlinkSync. apply keeps_seq; [apply keeps_emit; exact HP|].
  intros _. destruct (fs_fault env _); [apply keeps_pure|].
  intros w r w'. destruct (fs w !! path); intros [= <- <-]; split;
    try (exists []; rewrite app_nil_r; auto); auto.
  intros p Hp. cbn [fs]. apply lookup_delete_ne. intros E. exact (HQ p Hp (eq_sym E)).
Qed.

Lemma keeps_exec (command : string) (tool : string -> string + list Entry)
    (archive : string) :
  footprint env (Exec command) -> keeps (footprint env) (outside env) (execSync env command tool archive (binDir env)).
Proof.
  intros HP. unfold execSync. apply keeps_seq; [apply keeps_emit; exact HP|].
  intros _ w r w'. destruct (fs w !! archive) as [f|]; [|intros [= <- <-]; split;
    [exists []; rewrite app_nil_r; auto | auto]].
  destruct (tool (content f)); intros [= <- <-]; split;
    try (exists []; rewrite app_nil_r; auto); auto.
  intros p (_ & _ & Hp). cbn [fs]. apply unpack_other. exact Hp.
Qed.

Lemma keeps_extractTarGz (buffer : string) :
  keeps (footprint env) (outside env) (extractTarGz env buffer (binDir env)).
Proof.
  unfold extractTarGz. apply keeps_seq.
  - apply keeps_write; [right; left; reflexivity | intros p Hp; apply Hp].
  - intros _. apply keeps_try_finally.
    + apply keeps_exec. left. reflexivity.
    + unfold cleanup. apply keeps_try_catch.
      * apply keeps_unlink; [left; reflexivity | intros p Hp; apply Hp].
      * intros _. apply keeps_pure.
Qed.

Lemma keeps_extractZip (buffer : string) :
  keeps (footprint env) (outside env) (extractZip env buffer (binDir env)).
Proof.
  unfold extractZip. apply keeps_seq.
  - apply keeps_write; [right; right; reflexivity | intros p Hp; apply Hp].
  - intros _. apply keeps_try_finally.
    + apply keeps_exec. right. reflexivity.
    + unfold cleanup. apply keeps_try_catch.
      * apply keeps_unlink; [right; reflexivity | intros p Hp; apply Hp].
      * intros _. apply keeps_pure.
Qed.

Lemma keeps_download (fuel : nat) (url : string) : keeps (footprint env) (outside env) (download env fuel url).
Proof.
  intros w r w'. rewrite download_frame. intros [= <- <-]. split; [|auto].
  exists (snd (fetch env fuel url)). split; [reflexivity|].
  destruct (fetch_requests env fuel url) as [Hreq _].
  eapply Forall_impl; [exact Hreq|]. intros [] H; try exact I; destruct H.
Qed.

Lemma keeps_acquire (fuel : nat) (target url : string) :
  keeps (footprint env) (outside env) (acquire env fuel target (platform env) url).
Proof.
  unfold acquire. fold (binPath env).
  apply keeps_seq; [apply keeps_download|]. intros data.
  apply keeps_seq; [apply keeps_emit; exact I|]. intros _.
  apply keeps_seq; [apply keeps_mkdir|]. intros _.
  apply keeps_seq.
  { destruct (Js.includes target "windows");
      [apply keeps_extractZip | apply keeps_extractTarGz]. }
  intros _. apply keeps_seq.
  { destruct (negb _); [apply keeps_chmod | apply keeps_pure]. }
  intros _. apply keeps_emit. exact I.
Qed.

Lemma keeps_fallback (message : string) :
  keeps (footprint env) (outside env) (fallback env (platform env) message).
Proof.
  unfold fallback. fold (binPath env) (stub env).
  do 5 (apply keeps_seq; [apply keeps_emit; exact I|]; intros _).
  apply keeps_seq; [apply keeps_mkdir|]. intros _.
  apply keeps_seq.
  { apply keeps_write; [left; split; reflexivity | apply outside_bin]. }
  intros _. destruct (negb _); [apply keeps_chmod | apply keeps_pure].
Qed.

Lemma keeps_install (fuel : nat) : keeps (footprint env) (outside env) (install env fuel).
Proof.
  unfold install, getPlatformTarget.
  destruct (negb (Js.truthy _)).
  - intros w r w'. unfold bind, emit, process_exit. intros [= <- <-].
    split; [|auto]. cbn [out]. rewrite <- !app_assoc. eexists. split; [reflexivity|].
    repeat constructor.
  - unfold bind at 1, ret. cbn [fst snd]. fold (binPath env).
    apply keeps_seq; [apply keeps_exists|]. intros [|].
    + apply keeps_emit. exact I.
    + do 2 (apply keeps_seq; [apply keeps_emit; exact I|]; intros _).
      apply keeps_try_catch; [apply keeps_acquire | apply keeps_fallback].
Qed.

End Footprint.

Lemma string_length_app (a b : string) :
  String.length (a +:+ b) = (String.length a + String.length b)%nat.
Proof. induction a as [|x a IH]; simpl; [reflexivity | now rewrite IH]. Qed.

Lemma string_app_inv_tail (a b c : string) : a +:+ c = b +:+ c -> a = b.
Proof.
  revert b. induction a as [|x a IH]; intros [|y b] H; simpl in H.
  - reflexivity.
  - exfalso. apply (f_equal String.length) in H. simpl in H.
    rewrite string_length_app in H. lia.
  - exfalso. apply (f_equal String.length) in H. simpl in H.
    rewrite string_length_app in H. lia.
  - injection H as -> H. f_equal. apply IH, H.
Qed.

Lemma to_int_proper (z : Z) : Z.to_int z <> Decimal.Pos Decimal.Nil /\
                              Z.to_int z <> Decimal.Neg Decimal.Nil.
Proof.
  destruct z as [|p|p]; simpl; split; try discriminate;
    intros [= H]; exact (DecimalPos.Unsigned.to_uint_nonnil p H).
Qed.

Lemma num_inj (a b : Z) : Js.num a = Js.num b -> a = b.
Proof.
  unfold Js.num. intros H.
  apply (f_equal NilZero.int_of_string) in H.
  destruct (to_int_proper a) as [Ha1 Ha2], (to_int_proper b) as [Hb1 Hb2].
  rewrite !NilZero.isi in H by assumption.
  injection H as H. rewrite <- (DecimalZ.of_to a), <- (DecimalZ.of_to b), H.
  reflexivity.
Qed.

Lemma url_last (env : Env) (t : string) :
  last_char (getDownloadUrl env t)
  = Some (if Js.includes t "windows" then "p" else "z")%char.
Proof.
  unfold getDownloadUrl. do 10 apply last_char_app.
  destruct (Js.includes t "windows"); reflexivity.
Qed.

Lemma truthy_spec (v : option string) :
  Js.truthy v = true <-> exists loc, v = Some loc /\ loc <> EmptyString.
Proof.
  destruct v as [s|]; simpl.
  - destruct (String.eqb_spec s EmptyString) as [->|Hne]; simpl; split.
    + discriminate.
    + intros (loc & [= <-] & H). contradiction.
    + eauto.
    + reflexivity.
  - split; [discriminate | intros (loc & H & _); discriminate H].
Qed.


Lemma breaks_handler (env : Env) (url e : string) :
  forall hops fuel n code loc b w,
    300 <= code < 400 -> loc <> EmptyString ->
    breaks env n (Js.startsWith loc "https") loc hops e ->
    (length hops < fuel)%nat ->
    handler env fuel url n (mkResponse code (Some loc) b) w
    = (Throw e,
       grow w (HttpGet (Js.startsWith loc "https") loc
                 :: map (fun h => HttpGet (Js.startsWith (snd h) "https") (snd h)) hops)).
Proof.
  induction hops as [|[c l] hops IH];
    intros fuel n code loc b w Hc Hl Hb Hlen;
    (destruct fuel as [|fuel]; [simpl in Hlen; lia|]);
    rewrite (handler_redirect _ _ _ _ _ _ _ _ Hc Hl); simpl in Hb.
  - rewrite Hb. reflexivity.
  - destruct Hb as ([b' Hget] & Hc' & Hl' & Hrest). rewrite Hget.
    rewrite (IH fuel (S n) c l b' _ Hc' Hl' Hrest) by (simpl in Hlen; lia).
    rewrite grow_grow. reflexivity.
Qed.

Lemma fetch_breaks (env : Env) (fuel : nat) (url e : string)
    (hops : list (Z * string)) :
  breaks env 0 true url hops e ->
  (length hops <= fuel)%nat ->
  fetch env fuel url = (Throw e, requests_of url hops).
Proof.
  intros Hb Hlen. unfold fetch, download, bind, emit, requests_of.
  destruct hops as [|[c l] hops]; simpl in Hb.
  - rewrite Hb. reflexivity.
  - destruct Hb as ([b Hget] & Hc & Hl & Hrest). rewrite Hget.
    rewrite (breaks_handler env url e hops fuel 1%nat c l b _ Hc Hl Hrest)
      by (simpl in Hlen; lia).
    reflexivity.
Qed.

Lemma loop_handler (env : Env) (url : string) :
  redirects_forever env ->
  forall fuel n code loc b,
    300 <= code < 400 -> loc <> EmptyString ->
    exists tr,
      length tr = fuel /\
      forall w,
        handler env fuel url n (mkResponse code (Some loc) b) w = (OutOfFuel, grow w tr).
Proof.
  intros Hloop. induction fuel as [|fuel IH]; intros n code loc b Hc Hl.
  - exists []. split; [reflexivity|]. intros w. rewrite grow_nil.
    cbn [handler statusCode location].
    assert (Ht : Js.truthy (Some loc) = true).
    { simpl. destruct (String.eqb_spec loc EmptyString); [contradiction|reflexivity]. }
    rewrite Ht.
    destruct (Z.leb_spec 300 code); [|lia].
    destruct (Z.ltb_spec code 400); [|lia]. reflexivity.
  - destruct (Hloop n (Js.startsWith loc "https") loc) as (c & l & b' & Hget & Hc' & Hl').
    destruct (IH (S n) c l b' Hc' Hl') as (tr & Hlen & Hrun).
    exists (HttpGet (Js.startsWith loc "https") loc :: tr).
    split; [simpl; lia|]. intros w.
    rewrite (handler_redirect _ _ _ _ _ _ _ _ Hc Hl), Hget, Hrun, grow_grow.
    reflexivity.
Qed.

Lemma fetch_loop (env : Env) (fuel : nat) (url : string) :
  redirects_forever env ->
  exists tr, fetch env fuel url = (OutOfFuel, HttpGet true url :: tr) /\
             length tr = fuel.
Proof.
  intros Hloop. unfold fetch, download, bind, emit.
  destruct (Hloop 0%nat true url) as (c & l & b & Hget & Hc & Hl). rewrite Hget.
  destruct (loop_handler env url Hloop fuel 1%nat c l b Hc Hl) as (tr & Hlen & Hrun).
  rewrite Hrun. exists tr. split; [reflexivity | exact Hlen].
Qed.

Lemma acquire_out_of_fuel (env : Env) (fuel : nat) (t p url : string)
    (reqs : list Event) (w : World) :
  fetch env fuel url = (OutOfFuel, reqs) ->
  acquire env fuel t p url w = (OutOfFuel, grow w reqs).
Proof.
  intros Hf. unfold acquire, bind at 1. rewrite download_frame, Hf. reflexivity.
Qed.


Lemma install_populates (env : Env) (files : gmap string File) (fuel : nat)
    (w1 : World) :
  is_supported env ->
  platform env <> "win32" ->
  install env fuel (mkWorld files []) = (Ret tt, w1) ->
  is_Some (fs w1 !! binPath env).
Proof.
  intros Hsup Hp. destruct (files !! binPath env) as [f|] eqn:Ef.
  - rewrite (install_short_circuit env files fuel [] Hsup) by (rewrite Ef; eauto).
    intros [= <-]. cbn [fs]. rewrite Ef. eauto.
  - destruct Hsup as [t Ht]. rewrite (install_supported env fuel _ t Ht).
    cbn [fs]. rewrite Ef.
    rewrite bool_decide_eq_false_2 by (intros [x Hx]; discriminate Hx).
    unfold try_catch.
    destruct (acquire _ _ _ _ _ _) as [ra wa] eqn:Ea.
    apply acquire_post in Ea as (tr & _ & _ & Hr).
    destruct ra as [[]|e| |]; try (intros [= ]; fail).
    + intros [= <-]. destruct Hr as [_ Hm]. destruct (Hm Hp) as [c Hc].
      rewrite Hc. eauto.
    + intros Hf. apply fallback_post in Hf as (tr2 & _ & _ & _ & m & Hm & _).
      rewrite Hm. eauto.
Qed.

End ExtraProofs.

Module Extras.

Import Installer Spec ResolverClaims InstallerProofs ExtraProofs.

(** X1.  When a request of the download fails in transport, at the first
    request or after followed redirects, or when the body of the final 200
    response breaks off, the download is rejected with that error's
    message after exactly the requests made so far, and [install] warns
    with that message, writes the stub and the process ends with status
    0. *)
Theorem transport_error_absorbed (env : Env) (fuel : nat) (url e : string)
    (hops : list (Z * string)) :
  breaks env 0 true url hops e \/
  (exists final, follows env 0 true url hops final /\
                 statusCode final = 200 /\ body final = inr e) ->
  (length hops <= fuel)%nat ->
  fetch env fuel url = (Throw e, requests_of url hops) /\
  (forall files t,
     url = getDownloadUrl env t ->
     In (platform env, arch env, t) supported ->
     files !! binPath env = None ->
     stub_writable env ->
     exists w' m,
       main env fuel (mkWorld files []) = (Some 0, w') /\
       fs w' !! binPath env = Some (mkFile (stub env) m) /\
       In (ConsoleWarn (Js.nl +:+ "Failed to download pre-built binary: " +:+ e))
          (out w')).
Proof.
  intros Hfail Hlen.
  assert (Hfetch : fetch env fuel url = (Throw e, requests_of url hops)).
  { destruct Hfail as [Hb|(final & Hf & Hcode & Hbody)].
    - apply fetch_breaks; assumption.
    - assert (Hterm : terminal final) by (unfold terminal; rewrite Hcode; lia).
      rewrite (fetch_follows env fuel url hops final Hf Hterm Hlen).
      unfold settle. rewrite Hcode, Hbody. reflexivity. }
  split; [exact Hfetch|].
  intros files t -> Ht Hnone Hw.
  destruct (install_download_error env files fuel t e _ Ht Hnone Hw Hfetch)
    as (w' & m & Hrun & Hfs & _ & Hout).
  exists w', m. split; [unfold main; rewrite Hrun; reflexivity|].
  split; [exact Hfs|].
  rewrite Hout, !in_app_iff. right. right. left. left. reflexivity.
Qed.

Lemma transport_error_absorbed_witness :
  fetch Sample.dropped 1 (getDownloadUrl Sample.dropped "x86_64-unknown-linux-gnu")
  = (Throw "socket hang up",
     [ HttpGet true (getDownloadUrl Sample.dropped "x86_64-unknown-linux-gnu");
       HttpGet false Sample.mirror ]) /\
  fst (fetch Sample.truncated 0
         (getDownloadUrl Sample.truncated "x86_64-unknown-linux-gnu"))
  = Throw "aborted" /\
  exists w', main Sample.truncated 0 Sample.boot = (Some 0, w').
Proof.
  assert (Hb : breaks Sample.dropped 0 true
                 (getDownloadUrl Sample.dropped "x86_64-unknown-linux-gnu")
                 [(302, Sample.mirror)] "socket hang up").
  { simpl. split; [eexists; reflexivity|]. split; [lia|].
    split; [discriminate | reflexivity]. }
  destruct (transport_error_absorbed Sample.dropped 1 _ _ _ (or_introl Hb) (le_n 1))
    as [H1 _].
  split; [exact H1|].
  assert (Hf : exists final,
             follows Sample.truncated 0 true
               (getDownloadUrl Sample.truncated "x86_64-unknown-linux-gnu") [] final /\
             statusCode final = 200 /\ body final = inr "aborted").
  { eexists. split; [reflexivity|]. split; reflexivity. }
  destruct (transport_error_absorbed Sample.truncated 0 _ _ _ (or_intror Hf) (le_n 0))
    as [H2 Hinst].
  split; [rewrite H2; reflexivity|].
  destruct (Hinst ∅ "x86_64-unknown-linux-gnu" eq_refl) as (w' & m & Hmain & _).
  - simpl. tauto.
  - reflexivity.
  - repeat split; intros; reflexivity.
  - exists w'. exact Hmain.
Defined.

(** X2.  Against a server that answers every request with a followed
    redirect the download never settles: whatever the number of redirects
    allowed for, it has issued one request more and is still following,
    the process has not ended and no file has been touched. *)
Theorem redirect_loop_never_settles (env : Env) (fuel : nat) (url : string) :
  redirects_forever env ->
  fst (fetch env fuel url) = OutOfFuel /\
  length (snd (fetch env fuel url)) = S fuel /\
  (forall files,
     is_supported env -> files !! binPath env = None ->
     fst (main env fuel (mkWorld files [])) = None /\
     fs (snd (main env fuel (mkWorld files []))) = files).
Proof.
  intros Hloop.
  pose proof (fetch_loop env fuel url Hloop) as Hfetch.
  destruct Hfetch as (tr & Hfetch & Hlen).
  split; [rewrite Hfetch; reflexivity|].
  split; [rewrite Hfetch; simpl; lia|].
  intros files [t Ht] Hnone.
  unfold main. rewrite (install_supported env fuel _ t Ht). cbn [fs]. rewrite Hnone.
  rewrite bool_decide_eq_false_2 by (intros [x Hx]; discriminate Hx).
  destruct (fetch_loop env fuel (getDownloadUrl env t) Hloop) as (tr' & Hany & _).
  unfold try_catch. rewrite (acquire_out_of_fuel _ _ _ _ _ _ _ Hany).
  split; reflexivity.
Qed.

Lemma redirect_loop_never_settles_witness :
  fst (main Sample.looping 25 Sample.boot) = None /\
  length (snd (fetch Sample.looping 25 "https://example.org/a")) = 26%nat.
Proof.
  assert (Hloop : redirects_forever Sample.looping).
  { intros n s u. exists 307, Sample.mirror, (inl EmptyString).
    split; [reflexivity|]. split; [lia | discriminate]. }
  destruct (redirect_loop_never_settles Sample.looping 25 "https://example.org/a" Hloop)
    as (_ & Hlen & Hmain).
  split; [|exact Hlen].
  apply (Hmain ∅); [|reflexivity].
  exists "x86_64-unknown-linux-gnu". simpl. tauto.
Defined.

(** X3.  The first response is followed by a second request exactly
    when its status is in 300..399, its Location header is present and not
    empty, and the client's [get] accepts the Location; the second request
    then goes to the Location, through [https] exactly when the Location
    starts with [https].  When [get] refuses the Location the process
    ends with status 1 after the one request.  Every other response
    settles the download after the one request. *)
Theorem followed_exactly_when (env : Env) (fuel : nat) (url : string) (r : Response) :
  http_get env 0 true url = NetResponse r ->
  ((exists s u rest,
      snd (fetch env (S fuel) url) = HttpGet true url :: HttpGet s u :: rest) <->
   (300 <= statusCode r < 400 /\
    exists loc, location r = Some loc /\ loc <> EmptyString /\
                forall e, http_get env 1 (Js.startsWith loc "https") loc <> NetThrow e)) /\
  (forall loc,
     300 <= statusCode r < 400 -> location r = Some loc -> loc <> EmptyString ->
     match http_get env 1 (Js.startsWith loc "https") loc with
     | NetThrow e =>
         fetch env (S fuel) url = (Exit 1, [HttpGet true url; Uncaught e])
     | _ =>
         exists rest,
           snd (fetch env (S fuel) url)
           = HttpGet true url :: HttpGet (Js.startsWith loc "https") loc :: rest
     end) /\
  (~ (300 <= statusCode r < 400 /\
      exists loc, location r = Some loc /\ loc <> EmptyString) ->
   fetch env (S fuel) url = (settle url r, [HttpGet true url])).
Proof.
  intros Hget.
  assert (Hfollow : forall loc,
     300 <= statusCode r < 400 -> location r = Some loc -> loc <> EmptyString ->
     match http_get env 1 (Js.startsWith loc "https") loc with
     | NetThrow e =>
         fetch env (S fuel) url = (Exit 1, [HttpGet true url; Uncaught e])
     | _ =>
         exists rest,
           snd (fetch env (S fuel) url)
           = HttpGet true url :: HttpGet (Js.startsWith loc "https") loc :: rest
     end).
  { intros loc Hc Hloc Hne. unfold fetch, download, bind, emit. rewrite Hget.
    destruct r as [code l b]. cbn [statusCode location] in *. subst l.
    rewrite (handler_redirect _ _ _ _ _ _ _ _ Hc Hne).
    destruct (http_get env 1%nat _ loc) as [e|e|r'].
    - reflexivity.
    - exists []. reflexivity.
    - destruct (handler_frame env fuel url 2%nat r') as (res & tr & _ & _ & Hrun).
      rewrite Hrun. exists tr. reflexivity. }
  assert (Hsettle :
     ~ (300 <= statusCode r < 400 /\
        exists loc, location r = Some loc /\ loc <> EmptyString) ->
     fetch env (S fuel) url = (settle url r, [HttpGet true url])).
  { intros Hnot.
    assert (Hterm : terminal r).
    { unfold terminal. intros [Hc Ht]. apply Hnot. split; [exact Hc|].
      apply truthy_spec, Ht. }
    assert (Hf : follows env 0 true url [] r) by exact Hget.
    rewrite (fetch_follows env (S fuel) url [] r Hf Hterm) by (simpl; lia).
    reflexivity. }
  split; [|split; [exact Hfollow | exact Hsettle]]. split.
  - intros (s & u & rest & Htwo).
    destruct (Z_le_dec 300 (statusCode r)) as [Hlo|Hlo];
      [destruct (Z_lt_dec (statusCode r) 400) as [Hhi|Hhi]|].
    2,3: rewrite Hsettle in Htwo by (intros [Hc _]; lia); discriminate Htwo.
    destruct (location r) as [loc|] eqn:Hloc.
    2:{ rewrite Hsettle in Htwo by (intros (_ & loc & Hl & _); discriminate Hl).
        discriminate Htwo. }
    destruct (String.eqb_spec loc EmptyString) as [->|Hne].
    { rewrite Hsettle in Htwo
        by (intros (_ & loc & [= <-] & Hl); apply Hl; reflexivity).
      discriminate Htwo. }
    split; [lia|]. exists loc. split; [reflexivity|]. split; [exact Hne|].
    intros e He. pose proof (Hfollow loc (conj Hlo Hhi) eq_refl Hne) as Hcase.
    rewrite He in Hcase. rewrite Hcase in Htwo. discriminate Htwo.
  - intros (Hc & loc & Hloc & Hne & Hacc).
    pose proof (Hfollow loc Hc Hloc Hne) as Hcase.
    destruct (http_get env 1 _ loc) as [e|e|r'].
    + destruct (Hacc e eq_refl).
    + destruct Hcase as [rest Hrest]. eauto.
    + destruct Hcase as [rest Hrest]. eauto.
Qed.

Lemma followed_exactly_when_witness :
  fetch Sample.relative 3 "https://example.org/a"
  = (Exit 1, [HttpGet true "https://example.org/a"; Uncaught "Invalid URL"]) /\
  fetch Sample.empty_location 3 "https://example.org/a"
  = (Throw "Download failed with status 302: https://example.org/a",
     [HttpGet true "https://example.org/a"]) /\
  exists rest,
    snd (fetch Sample.redirected 3 "https://example.org/a")
    = HttpGet true "https://example.org/a" :: HttpGet false Sample.mirror :: rest.
Proof.
  split; [|split].
  - apply (proj1 (proj2 (followed_exactly_when Sample.relative 2
                           "https://example.org/a" _ eq_refl)) "/releases/asset").
    + simpl. lia.
    + reflexivity.
    + discriminate.
  - apply (proj2 (proj2 (followed_exactly_when Sample.empty_location 2
                           "https://example.org/a" _ eq_refl))).
    intros (_ & loc & [= <-] & Hne). apply Hne. reflexivity.
  - apply (proj1 (proj2 (followed_exactly_when Sample.redirected 2
                           "https://example.org/a" _ eq_refl)) Sample.mirror).
    + simpl. lia.
    + reflexivity.
    + discriminate.
Defined.

(** X4.  When the write of the temporary archive fails, either extractor
    throws the error of the write: the archive tool is not run and no
    removal is attempted.  So what the failed write left at the temporary
    path stays there: the path as it was when the file could not be
    opened, a file holding the bytes written until the failure otherwise.
    Every other file is as it was. *)
Theorem extract_unwritable (env : Env) (buffer destDir e : string) (w : World) :
  (fs_fault env (OpWrite (tmpFile env ".tar.gz")) = Some e ->
   let tmp := tmpFile env ".tar.gz" in
   let run := extractTarGz env buffer destDir w in
   fst run = Throw e /\
   out (snd run) = (out w ++ [FsWrite tmp buffer])%list /\
   (forall p, p <> tmp -> fs (snd run) !! p = fs w !! p) /\
   fs (snd run) !! tmp
   = match fs_partial env tmp with
     | None => fs w !! tmp
     | Some k =>
         Some (mkFile (String.substring 0 k buffer)
                 (match fs w !! tmp with
                  | Some f => mode f
                  | None => default_mode env
                  end))
     end) /\
  (fs_fault env (OpWrite (tmpFile env ".zip")) = Some e ->
   let tmp := tmpFile env ".zip" in
   let run := extractZip env buffer destDir w in
   fst run = Throw e /\
   out (snd run) = (out w ++ [FsWrite tmp buffer])%list /\
   (forall p, p <> tmp -> fs (snd run) !! p = fs w !! p) /\
   fs (snd run) !! tmp
   = match fs_partial env tmp with
     | None => fs w !! tmp
     | Some k =>
         Some (mkFile (String.substring 0 k buffer)
                 (match fs w !! tmp with
                  | Some f => mode f
                  | None => default_mode env
                  end))
     end).
Proof.
  split; intros Hwr; cbv zeta.
  - unfold extractTarGz, writeFileSync, bind, emit, throw. rewrite Hwr.
    cbn [fs out]. destruct (fs_partial env _); cbn [fst snd fs out].
    + split; [reflexivity|]. split; [reflexivity|].
      split; [|apply lookup_insert_eq].
      intros p Hp. apply lookup_insert_ne. congruence.
    + auto.
  - unfold extractZip, writeFileSync, bind, emit, throw. rewrite Hwr.
    cbn [fs out]. destruct (fs_partial env _); cbn [fst snd fs out].
    + split; [reflexivity|]. split; [reflexivity|].
      split; [|apply lookup_insert_eq].
      intros p Hp. apply lookup_insert_ne. congruence.
    + auto.
Qed.

Lemma extract_unwritable_witness :
  fst (extractTarGz Sample.half_written "ARCHIVE" "/pkg/bin" Sample.boot)
  = Throw "ENOSPC: no space left on device" /\
  out (snd (extractTarGz Sample.half_written "ARCHIVE" "/pkg/bin" Sample.boot))
  = [FsWrite "/tmp/ai-statusline-1700000000000.tar.gz" "ARCHIVE"] /\
  fs (snd (extractTarGz Sample.half_written "ARCHIVE" "/pkg/bin" Sample.boot))
    !! "/tmp/ai-statusline-1700000000000.tar.gz"
  = Some (mkFile "ARC" 420) /\
  extractTarGz Sample.full_tmp "ARCHIVE" "/pkg/bin" Sample.boot
  = (Throw "ENOSPC: no space left on device",
     mkWorld ∅ [FsWrite "/tmp/ai-statusline-1700000000000.tar.gz" "ARCHIVE"]).
Proof.
  destruct (proj1 (extract_unwritable Sample.half_written "ARCHIVE" "/pkg/bin" _
                     Sample.boot) eq_refl) as (Hr & Hout & _ & Hleft).
  split; [exact Hr|]. split; [exact Hout|]. split; [exact Hleft|].
  vm_compute. reflexivity.
Defined.

(** X5.  Whatever the host, the network and the files, the calls of a
    run of the installer that change the file system or run a command are
    confined: it creates no directory but the bin directory, writes no
    file but its temporary archive and the stub at the destination,
    changes no mode but the destination's (to 0755), removes no file but
    its temporary archive and runs no command but [tar] or [unzip] on that
    archive.  ([existsSync], which changes nothing, is not an event of the
    trace and is not spoken of.) *)
Theorem install_footprint (env : Env) (files : gmap string File) (fuel : nat) :
  Forall (footprint env) (out (snd (main env fuel (mkWorld files [])))).
Proof.
  unfold main. destruct (install env fuel (mkWorld files [])) as [r w'] eqn:E.
  destruct (keeps_install env fuel _ _ _ E) as [(tr & Hout & Htr) _].
  cbn [out app] in Hout.
  destruct r; cbn [snd out]; rewrite Hout; try exact Htr.
  apply Forall_app. split; [exact Htr|]. repeat constructor.
Qed.







(** X9.  Off win32, after any run of [install] that returns, a further
    run on a host with the same destination, whatever its network, only
    reports the destination as installed: no request, no file changed,
    status 0. *)
Theorem posix_rerun_is_noop (env env2 : Env) (files : gmap string File)
    (fuel fuel2 : nat) (w1 : World) :
  is_supported env ->
  platform env <> "win32" ->
  same_host env env2 ->
  install env fuel (mkWorld files []) = (Ret tt, w1) ->
  main env2 fuel2 (mkWorld (fs w1) [])
  = (Some 0, mkWorld (fs w1) [already_installed_log env]).
Proof.
  intros Hsup Hp Hsame Hrun.
  pose proof (install_populates env files fuel w1 Hsup Hp Hrun) as Hsome.
  destruct (same_host_binPath env env2 Hsame) as [Hb Hs].
  rewrite <- Hb in Hsome. unfold main.
  rewrite (install_short_circuit env2 (fs w1) fuel2 [] (Hs Hsup) Hsome).
  unfold already_installed_log. rewrite Hb. reflexivity.
Qed.

Lemma posix_rerun_is_noop_witness :
  main Sample.linux_offline 0
    (mkWorld (fs (snd (install Sample.direct 0 Sample.boot))) [])
  = (Some 0,
     mkWorld (fs (snd (install Sample.direct 0 Sample.boot)))
       [already_installed_log Sample.direct]).
Proof.
  apply (posix_rerun_is_noop Sample.direct Sample.linux_offline ∅ 0 0).
  - exists "x86_64-unknown-linux-gnu". simpl. tauto.
  - discriminate.
  - repeat split.
  - vm_compute. reflexivity.
Defined.

(** X10.  Once a failed download or a failing archive tool has ended in
    the stub, the stub stays: a further run, also with a working network,
    finds the destination populated and downloads nothing. *)
Theorem stub_is_never_replaced (env env2 : Env) (files : gmap string File)
    (fuel fuel2 : nat) (t : string) :
  In (platform env, arch env, t) supported ->
  files !! binPath env = None ->
  stub_writable env ->
  (exists e, fst (fetch env fuel (getDownloadUrl env t)) = Throw e) \/
  (exists data e, fst (fetch env fuel (getDownloadUrl env t)) = Ret data /\
                  archive_tool env t data = inl e) ->
  same_host env env2 ->
  let w1 := snd (main env fuel (mkWorld files [])) in
  (exists m, fs w1 !! binPath env = Some (mkFile (stub env) m)) /\
  main env2 fuel2 (mkWorld (fs w1) [])
  = (Some 0, mkWorld (fs w1) [already_installed_log env]).
Proof.
  intros Ht Hnone Hw Hfail Hsame. cbv zeta.
  assert (Hsup : is_supported env) by (exists t; exact Ht).
  assert (Hfs : exists m, fs (snd (main env fuel (mkWorld files []))) !! binPath env
                          = Some (mkFile (stub env) m)).
  { unfold main. rewrite (install_supported env fuel _ t Ht). cbn [fs]. rewrite Hnone.
    rewrite bool_decide_eq_false_2 by (intros [x Hx]; discriminate Hx).
    unfold try_catch.
    destruct (acquire_fails env fuel t (grow (mkWorld files []) (announce env t)) Hfail)
      as (e' & wa & Ea).
    rewrite Ea.
    destruct (fallback_writable env e' wa Hw) as (wf & m & Ef & Hm & _).
    rewrite Ef. exists m. exact Hm. }
  split; [exact Hfs|].
  destruct Hfs as [m Hm].
  destruct (same_host_binPath env env2 Hsame) as [Hb Hs].
  unfold main at 1.
  rewrite (install_short_circuit env2 _ fuel2 [] (Hs Hsup))
    by (rewrite Hb, Hm; eauto).
  unfold already_installed_log. rewrite Hb. reflexivity.
Qed.

Lemma stub_is_never_replaced_witness :
  main Sample.direct 0
    (mkWorld (fs (snd (main Sample.linux_offline 0 Sample.boot))) [])
  = (Some 0,
     mkWorld (fs (snd (main Sample.linux_offline 0 Sample.boot)))
       [already_installed_log Sample.linux_offline]).
Proof.
  assert (Ht : In (platform Sample.linux_offline, arch Sample.linux_offline,
                   "x86_64-unknown-linux-gnu") supported) by (simpl; tauto).
  assert (Hw : stub_writable Sample.linux_offline).
  { split; [reflexivity|]. split; [reflexivity|]. intros _. reflexivity. }
  assert (Hfail :
    (exists e, fst (fetch Sample.linux_offline 0
                      (getDownloadUrl Sample.linux_offline "x86_64-unknown-linux-gnu"))
               = Throw e) \/
    (exists data e,
       fst (fetch Sample.linux_offline 0
              (getDownloadUrl Sample.linux_offline "x86_64-unknown-linux-gnu"))
       = Ret data /\
       archive_tool Sample.linux_offline "x86_64-unknown-linux-gnu" data = inl e)).
  { left. eexists. vm_compute. reflexivity. }
  assert (Hsame : same_host Sample.linux_offline Sample.direct) by (repeat split).
  exact (proj2 (stub_is_never_replaced Sample.linux_offline Sample.direct ∅ 0 0 _
                  Ht (lookup_empty _) Hw Hfail Hsame)).
Defined.

(** X11.  On one host, two extractions of the same archive kind use the
    same temporary file exactly when they read the same millisecond from
    the clock. *)
Theorem tmpFile_unique_per_millisecond (env env2 : Env) (ext : string) :
  platform env2 = platform env ->
  tmpdir env2 = tmpdir env ->
  (tmpFile env ext = tmpFile env2 ext <-> now env = now env2).
Proof.
  intros Hp Hd. unfold tmpFile, path_join, sep. rewrite Hp, Hd. split.
  - intros H. do 3 apply string_app_inv_head in H.
    apply string_app_inv_tail, num_inj in H. lia.
  - intros ->. reflexivity.
Qed.

Lemma tmpFile_unique_per_millisecond_witness :
  tmpFile Sample.direct ".tar.gz" <> tmpFile Sample.direct_later ".tar.gz".
Proof.
  intros H.
  apply (proj1 (tmpFile_unique_per_millisecond Sample.direct Sample.direct_later
                  ".tar.gz" eq_refl eq_refl)) in H.
  discriminate H.
Defined.

(** X12.  For one package version, different targets have different
    download URLs. *)
Theorem getDownloadUrl_injective (env : Env) (t1 t2 : string) :
  getDownloadUrl env t1 = getDownloadUrl env t2 -> t1 = t2.
Proof.
  intros H.
  assert (Hw : Js.includes t1 "windows" = Js.includes t2 "windows").
  { pose proof (url_last env t1) as H1. rewrite H, url_last in H1.
    destruct (Js.includes t1 "windows"), (Js.includes t2 "windows");
      try reflexivity; discriminate H1. }
  unfold getDownloadUrl in H. rewrite Hw in H.
  do 9 apply string_app_inv_head in H.
  apply string_app_inv_tail in H. exact H.
Qed.

Lemma getDownloadUrl_injective_witness :
  getDownloadUrl Sample.direct "x86_64-unknown-linux-gnu"
  <> getDownloadUrl Sample.direct "aarch64-unknown-linux-gnu".
Proof.
  intros H. apply getDownloadUrl_injective in H. discriminate H.
Defined.

Import Launcher.

(** X13.  The path [index.js] exports is the path the launcher in the
    package's [bin] directory starts, on every platform and for both
    package names. *)
Theorem entry_point_names_launched_binary (name : string) (h : Host) :
  Index.binaryPath name h = fst (fst (child (cli name (launcher_of h)))).
Proof.
  unfold Index.binaryPath, cli, launcher_of, Launcher.sep. cbn [platform dirname].
  destruct (error _); cbn [child fst]; rewrite !app_assoc_s; reflexivity.
Qed.

(** X14.  A launcher that sits in the installer's bin directory never
    starts the file the installer puts there: the installer's destination
    is [ai-statusline], the launchers start [claudeline-bin] or
    [claude-status-bin]. *)
Theorem launcher_never_runs_installed_binary (env : Env) (h : Host) (name : string) :
  Launcher.platform h = Installer.platform env ->
  Launcher.dirname h = binDir env ->
  (name = "claudeline" \/ name = "claude-status") ->
  fst (fst (child (cli name h))) <> binPath env.
Proof.
  intros Hp Hd Hname E.
  assert (Hbin : fst (fst (child (cli name h)))
                 = path_join env (binDir env)
                     (name +:+ "-bin" +:+
                      (if String.eqb (Installer.platform env) "win32"
                       then ".exe" else EmptyString))).
  { unfold cli, path_join, Launcher.sep, Installer.sep. rewrite Hp, Hd.
    destruct (error _); reflexivity. }
  rewrite Hbin in E. unfold binPath, binPath_of in E.
  apply path_join_inj in E.
  destruct (String.eqb (Installer.platform env) "win32");
    destruct Hname as [-> | ->]; discriminate E.
Qed.

Lemma launcher_never_runs_installed_binary_witness :
  fst (fst (child (claudeline (launcher_of Sample.package_host))))
  <> binPath Sample.direct.
Proof.
  apply (launcher_never_runs_installed_binary Sample.direct
           (launcher_of Sample.package_host) "claudeline");
    [reflexivity | reflexivity | left; reflexivity].
Defined.

End Extras.
